(** * ImaraFund matching engine: a shallow embedding of
      [app/services/intelligent_matcher.py] and of the matching endpoint of
      [app/api/endpoints.py], with the properties of its scoring and ranking.

    Layout:
    - [PyStr]    the [str] methods the matcher uses ([lower], [strip], [split],
                 [in]);
    - [PyFloat]  binary64 arithmetic as Python's [float] has it, on the
                 Standard Library's [spec_float];
    - [PyList]   [sorted(..., reverse=True)] and the slice [[:n]];
    - the models ([Company], [Grant]), the matcher and the endpoint;
    - the vocabulary of the properties and the sample records;
    - the facts about strings, floats and sorting, and the theorems. *)

From Stdlib Require Import ZArith List String Ascii Bool Lia.
From Stdlib Require Import Floats.SpecFloat.
From Stdlib Require Import DecimalString.
From Stdlib Require Import Sorting.Sorted Sorting.Permutation.
Import ListNotations.

Local Open Scope string_scope.
Local Open Scope Z_scope.

(* ================================================================= *)
(** ** Python strings *)

(** A [str] is modelled as a [string] whose characters are the code points
    U+0000 to U+00FF.  On that range [str.lower], [str.isspace] (hence
    [strip] and [split]) are the tables below. *)
Module PyStr.

(** [c.isspace()]: TAB, LF, VT, FF, CR, the separators FS, GS, RS, US,
    SPACE, NEL and NO-BREAK SPACE. *)
Definition isspace (c : ascii) : bool :=
  let n := N_of_ascii c in
  ((9 <=? n) && (n <=? 13) || (28 <=? n) && (n <=? 32)
   || (n =? 133) || (n =? 160))%N.

(** [c.lower()]: A-Z, and the capital letters U+00C0-U+00D6 and
    U+00D8-U+00DE, move 32 code points up. *)
Definition lower_char (c : ascii) : ascii :=
  let n := N_of_ascii c in
  if ((65 <=? n) && (n <=? 90) || (192 <=? n) && (n <=? 214)
      || (216 <=? n) && (n <=? 222))%N
  then ascii_of_N (n + 32) else c.

Fixpoint lower (s : string) : string :=
  match s with
  | EmptyString => EmptyString
  | String c s' => String (lower_char c) (lower s')
  end.

Definition is_empty (s : string) : bool :=
  match s with EmptyString => true | String _ _ => false end.

Fixpoint lstrip (s : string) : string :=
  match s with
  | EmptyString => EmptyString
  | String c s' => if isspace c then lstrip s' else s
  end.

Fixpoint rstrip (s : string) : string :=
  match s with
  | EmptyString => EmptyString
  | String c s' =>
      let r := rstrip s' in
      if isspace c && is_empty r then EmptyString else String c r
  end.

(** [s.strip()] *)
Definition strip (s : string) : string := rstrip (lstrip s).

(** [len(s)] *)
Definition len (s : string) : Z := Z.of_nat (String.length s).

(** [sub in s] *)
Fixpoint contains (sub s : string) : bool :=
  match s with
  | EmptyString => is_empty sub
  | String _ s' => String.prefix sub s || contains sub s'
  end.

(** [s.split()]: the maximal runs of non-whitespace characters, in order.
    [word] is the run being read. *)
Fixpoint split_from (word s : string) : list string :=
  match s with
  | EmptyString => if is_empty word then [] else [word]
  | String c s' =>
      if isspace c
      then (if is_empty word then split_from EmptyString s'
            else word :: split_from EmptyString s')
      else split_from (word ++ String c EmptyString) s'
  end.

Definition split (s : string) : list string := split_from EmptyString s.

(** [s in l] for a list of strings *)
Definition mem (s : string) (l : list string) : bool :=
  existsb (String.eqb s) l.

(** [x or d] for an optional [str]: [None] and [''] are falsy. *)
Definition or_default (x : option string) (d : string) : string :=
  match x with
  | Some s => if is_empty s then d else s
  | None => d
  end.

(** [str(n)] for an [int] *)
Definition of_int (n : Z) : string := NilZero.string_of_int (Z.to_int n).

(** The mathematical notion [contains] decides. *)
Definition Substring (sub s : string) : Prop :=
  exists pre post, s = pre ++ sub ++ post.

End PyStr.

(* ================================================================= *)
(** ** Python floats *)

(** A [float] is an IEEE 754 binary64 value: [spec_float] at precision 53 and
    maximal exponent 1024, with the operations of [SpecFloat] (rounding to
    nearest, ties to even). *)
Module PyFloat.

Definition float := spec_float.

(** The float of an integer literal or of an [int] operand. *)
Definition of_Z (z : Z) : float := binary_normalize 53 1024 z 0 false.

Definition add (x y : float) : float := SFadd 53 1024 x y.
Definition fdiv (x y : float) : float := SFdiv 53 1024 x y.
Definition eqb (x y : float) : bool := SFeqb x y.
Definition ltb (x y : float) : bool := SFltb x y.
Definition leb (x y : float) : bool := SFleb x y.

(** A decimal literal [n/d] with [n] and [d] exactly representable is the
    double nearest to the quotient: [0.1] is [decimal 1 10]. *)
Definition decimal (n d : Z) : float := fdiv (of_Z n) (of_Z d).

(** [bool(x)]: every float but the two zeros is truthy (NaN included). *)
Definition truthy (x : float) : bool := negb (eqb x (of_Z 0)).

(** [x or d] for an optional float column *)
Definition or_default (x : option float) (d : float) : float :=
  match x with
  | Some f => if truthy f then f else d
  | None => d
  end.

(** [min(a, b)]: the first argument unless the second is smaller. *)
Definition min (a b : float) : float := if ltb b a then b else a.

(** Nearest integer to [a / 2^k], ties to even. *)
Definition div_pow2_half_even (a : Z) (k : Z) : Z :=
  let d := Z.pow 2 k in
  let q := Z.div a d in
  let r := Z.modulo a d in
  match Z.compare (2 * r) d with
  | Lt => q
  | Gt => q + 1
  | Eq => if Z.even q then q else q + 1
  end.

(** [round(x, 1)]: the exact value of [x] is rounded half-even to a
    multiple of 1/10 (the decimal string of [float.__round__]) and that
    decimal is read back as the nearest double.  Zeros, infinities and NaN
    round to themselves. *)
Definition round1 (x : float) : float :=
  match x with
  | S754_finite s m e =>
      let tenths :=
        if 0 <=? e then 10 * Zpos m * Z.pow 2 e
        else div_pow2_half_even (10 * Zpos m) (- e) in
      match tenths with
      | Zpos p => fdiv (S754_finite s p 0) (of_Z 10)
      | _ => S754_zero s
      end
  | _ => x
  end.

(** The integer a float holds, when it holds one (0 otherwise); used to
    order scores. *)
Definition to_Z (x : float) : Z :=
  match x with
  | S754_finite s m e =>
      let v := if 0 <=? e then Zpos m * Z.pow 2 e
               else Zpos m / Z.pow 2 (- e) in
      if s then - v else v
  | _ => 0
  end.

End PyFloat.

(* ================================================================= *)
(** ** Python lists *)

Module PyList.
Section Sorting.
Context {A : Type}.
(** [lt x y]: the key of [x] is [<] the key of [y]; the only comparison
    [list.sort] makes. *)
Variable lt : A -> A -> bool.

(** [x] goes in front of the first element it is smaller than, so behind
    every element it ties with. *)
Fixpoint insert (x : A) (l : list A) : list A :=
  match l with
  | [] => [x]
  | y :: l' => if lt x y then x :: l else y :: insert x l'
  end.

(** [sorted(l, key=...)]: a stable ascending sort, the elements taken
    from left to right. *)
Definition sorted (l : list A) : list A :=
  fold_left (fun acc x => insert x acc) l [].

(** [sorted(l, key=..., reverse=True)]: [list.sort] reverses the list,
    sorts it ascending and reverses the result, which keeps ties in
    their original order. *)
Definition sorted_reverse (l : list A) : list A :=
  rev (sorted (rev l)).
End Sorting.

(** [l[:n]]: a negative [n] counts from the end. *)
Definition slice_to {A : Type} (n : Z) (l : list A) : list A :=
  if 0 <=? n then firstn (Z.to_nat n) l
  else firstn (List.length l - Z.to_nat (- n))%nat l.
End PyList.

(* ================================================================= *)
(** ** Models ([app/models.py]) *)

(** The columns the matcher reads.  A column is [None] or a value of its
    type. *)
Record Company := {
  company_id_pk : Z;                       (* Company.id *)
  company_name : option string;
  sector : option string;
  business_stage : option string;
  nationality : option string;
  funding_need_usd : option PyFloat.float
}.

Record Grant := {
  grant_id_pk : Z;                         (* Grant.id *)
  program_name : option string;
  institution_name : option string;
  country : option string;
  geographic_scope : option string;
  estimated_value_amount : option PyFloat.float;
  repayment_required : option bool;
  target_sectors : option string;
  website_url : option string;
  data_source_url : option string
}.

(* ================================================================= *)
(** ** Exceptions and the session *)

Inductive exn :=
| ValueError (msg : string)
| ZeroDivisionError (msg : string).

(** [str(e)] *)
Definition exn_str (e : exn) : string :=
  match e with ValueError msg | ZeroDivisionError msg => msg end.

(** A computation that returns or raises. *)
Definition result (A : Type) : Type := exn + A.

(** [a / b] on floats raises on a zero divisor. *)
Definition truediv (a b : PyFloat.float) : result PyFloat.float :=
  if PyFloat.eqb b (PyFloat.of_Z 0)
  then inl (ZeroDivisionError "float division by zero")
  else inr (PyFloat.fdiv a b).

(** The database behind a [Session]: the two tables, in the order [all()]
    returns their rows. *)
Record Session := {
  companies : list Company;
  grants : list Grant
}.

(** What a run does that can be observed from outside: the queries it sends
    and the lines it logs. *)
Inductive event :=
| QueryCompanyFirst (company_id : Z)
| QueryGrantAll
| LogInfo (msg : string).

(** Computations over the session: they extend the trace and return or
    raise. *)
Definition M (A : Type) : Type := list event -> result A * list event.

Definition ret {A} (a : A) : M A := fun tr => (inr a, tr).
Definition raise {A} (e : exn) : M A := fun tr => (inl e, tr).
Definition bind {A B} (m : M A) (k : A -> M B) : M B :=
  fun tr => match m tr with
            | (inl e, tr') => (inl e, tr')
            | (inr a, tr') => k a tr'
            end.
Definition emit (ev : event) : M unit := fun tr => (inr tt, (tr ++ [ev])%list).
Definition lift {A} (r : result A) : M A := fun tr => (r, tr).

Notation "x <- m ;; k" := (bind m (fun x => k))
  (at level 61, m at next level, right associativity).
Notation "m ;;; k" := (bind m (fun _ => k))
  (at level 61, right associativity).

(** [db.query(Company).filter(Company.id == company_id).first()] *)
Definition query_company_first (db : Session) (company_id : Z)
  : M (option Company) :=
  emit (QueryCompanyFirst company_id) ;;;
  ret (find (fun c => company_id_pk c =? company_id) (companies db)).

(** [db.query(Grant).all()] *)
Definition query_grant_all (db : Session) : M (list Grant) :=
  emit QueryGrantAll ;;; ret (grants db).

(** [logger.info(msg)] *)
Definition logger_info (msg : string) : M unit := emit (LogInfo msg).

(* ================================================================= *)
(** ** The matcher ([app/services/intelligent_matcher.py]) *)

(** [breakdown]: a dict with the four keys ['geographic'], ['sector'],
    ['amount_fit'] and ['stage']. *)
Record Breakdown := {
  bd_geographic : PyFloat.float;
  bd_sector : PyFloat.float;
  bd_amount_fit : PyFloat.float;
  bd_stage : PyFloat.float
}.

(** [x or 0] on a float column is the float or the [int] 0. *)
Inductive PyNum :=
| PyInt (z : Z)
| PyFloatVal (f : PyFloat.float).

(** One entry of [matches]: the dict [find_matches] appends, key by key. *)
Record Match := {
  m_grant : Grant;
  m_program_name : string;
  m_institution : string;
  m_country : string;
  m_funding_amount : PyNum;
  m_match_score : PyFloat.float;
  m_score_breakdown : Breakdown;
  m_target_sectors : string;
  m_website : string;
  m_data_source_url : string;
  m_repayment_required : string
}.

(** [str(x or '').lower().strip()] *)
Definition normalize (x : option string) : string :=
  PyStr.strip (PyStr.lower (PyStr.or_default x "")).

Definition africa_countries : list string :=
  [ "nigeria"; "kenya"; "south africa"; "ghana"; "uganda"; "egypt";
    "tanzania"; "rwanda"; "ethiopia"; "senegal"; "botswana"; "zambia";
    "zimbabwe"; "morocco"; "tunisia"; "algeria"; "libya"; "cameroon";
    "ivory coast"; "mali"; "burkina faso"; "niger"; "madagascar" ].

Definition _score_geography (company : Company) (grant : Grant)
  : PyFloat.float :=
  let company_country := normalize (nationality company) in
  let grant_scope := normalize (geographic_scope grant) in
  let grant_country := normalize (country grant) in
  if PyStr.contains "global" grant_scope then PyFloat.of_Z 40
  else if PyStr.contains company_country grant_country
          || PyStr.contains company_country grant_scope
  then PyFloat.of_Z 40
  else if PyStr.mem company_country africa_countries
          && (PyStr.contains "africa" grant_scope
              || PyStr.contains "african" grant_scope)
  then PyFloat.of_Z 35
  else PyFloat.of_Z 0.

Definition _score_sector (company : Company) (grant : Grant)
  : PyFloat.float :=
  let company_sector := normalize (sector company) in
  let target := normalize (target_sectors grant) in
  if existsb (fun keyword => PyStr.contains keyword target)
             ["all"; "general"; "any"]
  then PyFloat.of_Z 25
  else if PyStr.contains company_sector target then PyFloat.of_Z 30
  else
    let sector_words := PyStr.split company_sector in
    if existsb (fun word => PyStr.contains word target)
               (filter (fun word => 3 <? PyStr.len word) sector_words)
    then PyFloat.of_Z 20
    else PyFloat.of_Z 10.

(** The fit of a computed [ratio]: the [if]/[elif]/[else] after the
    division. *)
Definition amount_fit_of_ratio (ratio : PyFloat.float) : PyFloat.float :=
  if PyFloat.leb (PyFloat.decimal 1 10) ratio
     && PyFloat.leb ratio (PyFloat.of_Z 2)
  then PyFloat.of_Z 20
  else if PyFloat.leb (PyFloat.decimal 5 100) ratio
          && PyFloat.leb ratio (PyFloat.of_Z 5)
  then PyFloat.of_Z 15
  else PyFloat.of_Z 8.

Definition _score_funding_amount (company : Company) (grant : Grant)
  : result PyFloat.float :=
  let need := PyFloat.or_default (funding_need_usd company) (PyFloat.of_Z 0) in
  let available :=
    PyFloat.or_default (estimated_value_amount grant) (PyFloat.of_Z 0) in
  if PyFloat.eqb available (PyFloat.of_Z 0) || PyFloat.eqb need (PyFloat.of_Z 0)
  then inr (PyFloat.of_Z 15)
  else
    match truediv need available with
    | inl e => inl e
    | inr ratio => inr (amount_fit_of_ratio ratio)
    end.

Definition _score_business_stage (company : Company) (grant : Grant)
  : PyFloat.float :=
  let stage := normalize (business_stage company) in
  if PyStr.mem stage ["startup"; "early growth"] then PyFloat.of_Z 10
  else if String.eqb stage "idea" then PyFloat.of_Z 8
  else if PyStr.mem stage ["growth"; "scale-up"; "expansion"]
  then PyFloat.of_Z 9
  else PyFloat.of_Z 7.

Definition _calculate_match_score (company : Company) (grant : Grant)
  : result (PyFloat.float * Breakdown) :=
  let score := PyFloat.of_Z 0 in
  let geo_score := _score_geography company grant in
  let score := PyFloat.add score geo_score in
  let sector_score := _score_sector company grant in
  let score := PyFloat.add score sector_score in
  match _score_funding_amount company grant with
  | inl e => inl e
  | inr amount_score =>
      let score := PyFloat.add score amount_score in
      let stage_score := _score_business_stage company grant in
      let score := PyFloat.add score stage_score in
      inr (PyFloat.min (PyFloat.of_Z 100) score,
           {| bd_geographic := geo_score;
              bd_sector := sector_score;
              bd_amount_fit := amount_score;
              bd_stage := stage_score |})
  end.

(** The dict appended for a grant that passed the threshold. *)
Definition make_match (grant : Grant) (score : PyFloat.float)
    (breakdown : Breakdown) : Match :=
  {| m_grant := grant;
     m_program_name := PyStr.or_default (program_name grant) "Unknown Program";
     m_institution :=
       PyStr.or_default (institution_name grant) "Unknown Institution";
     m_country := PyStr.or_default (country grant) "Unknown";
     m_funding_amount :=
       match estimated_value_amount grant with
       | Some f => if PyFloat.truthy f then PyFloatVal f else PyInt 0
       | None => PyInt 0
       end;
     m_match_score := PyFloat.round1 score;
     m_score_breakdown := breakdown;
     m_target_sectors := PyStr.or_default (target_sectors grant) "General";
     m_website := PyStr.or_default (website_url grant) "Not available";
     m_data_source_url :=
       PyStr.or_default (data_source_url grant) "Not available";
     m_repayment_required :=
       match repayment_required grant with
       | Some true => "True"
       | Some false => "False"
       | None => "Unknown"
       end |}.

(** The [for grant in grants] loop; [matches] is the list built so far. *)
Fixpoint match_loop (company : Company) (grants : list Grant)
    (matches : list Match) : result (list Match) :=
  match grants with
  | [] => inr matches
  | grant :: rest =>
      match _calculate_match_score company grant with
      | inl e => inl e
      | inr (score, breakdown) =>
          if PyFloat.ltb (PyFloat.of_Z 30) score
          then match_loop company rest
                 (matches ++ [make_match grant score breakdown])%list
          else match_loop company rest matches
      end
  end.

(** The comparison behind [key=lambda x: x['match_score']]. *)
Definition match_score_lt (x y : Match) : bool :=
  PyFloat.ltb (m_match_score x) (m_match_score y).

Definition str_len {A} (l : list A) : string :=
  PyStr.of_int (Z.of_nat (List.length l)).

Definition find_matches (db : Session) (company_id : Z) (top_n : Z)
  : M (Company * list Match) :=
  company <- query_company_first db company_id ;;
  match company with
  | None =>
      raise (ValueError
               ("Company with ID " ++ PyStr.of_int company_id ++ " not found"))
  | Some company =>
      grants <- query_grant_all db ;;
      logger_info ("Processing " ++ str_len grants ++ " grants for company "
                   ++ match company_name company with
                      | Some n => n
                      | None => "None"
                      end) ;;;
      matches <- lift (match_loop company grants []) ;;
      let matches_sorted :=
        PyList.slice_to top_n (PyList.sorted_reverse match_score_lt matches) in
      logger_info ("Found " ++ str_len matches
                   ++ " matches above threshold, returning top "
                   ++ str_len matches_sorted) ;;;
      ret (company, matches_sorted)
  end.

(* ================================================================= *)
(** ** The endpoint ([app/api/endpoints.py]) *)

Inductive HTTPException :=
| mkHTTPException (status_code : Z) (detail : string).

Section Endpoint.
(** What follows the [try] block (the response assembly and the
    recommendation call) is a parameter of the model. *)
Variable Response : Type.
Variable respond : Company -> list Match -> Response.

(** [POST /match/{company_id}], for a [top_n] that passed the query
    validation. *)
Definition match_company_with_grants (company_id top_n : Z) (db : Session)
  : list event -> (HTTPException + Response) * list event :=
  fun tr =>
    (* IntelligentMatcher(db) *)
    let tr := snd (logger_info "ImaraFund IntelligentMatcher initialized" tr) in
    match find_matches db company_id top_n tr with
    | (inl (ValueError msg), tr') => (inl (mkHTTPException 404 msg), tr')
    | (inl e, tr') =>
        (inl (mkHTTPException 500 ("Matching error: " ++ exn_str e)), tr')
    | (inr (company, matches), tr') => (inr (respond company matches), tr')
    end.
End Endpoint.

(** [GET /grants/{grant_id}]: the first row with that id, or 404. *)
Definition get_grant (grant_id : Z) (db : Session) : HTTPException + Grant :=
  match find (fun g => grant_id_pk g =? grant_id) (grants db) with
  | None =>
      inl (mkHTTPException 404
             ("Grant " ++ PyStr.of_int grant_id ++ " not found"))
  | Some grant => inr grant
  end.

(* ================================================================= *)
(** ** Response schemas ([app/schemas.py]) *)

(** The bounds [ScoreBreakdown] declares: [geographic] in 0..40, [sector] in
    0..30, [amount_fit] in 0..20, [stage] in 0..10 ([ge] and [le] are [>=]
    and [<=]). *)
Definition ScoreBreakdown_in_bounds (b : Breakdown) : bool :=
  PyFloat.leb (PyFloat.of_Z 0) (bd_geographic b)
  && PyFloat.leb (bd_geographic b) (PyFloat.of_Z 40)
  && PyFloat.leb (PyFloat.of_Z 0) (bd_sector b)
  && PyFloat.leb (bd_sector b) (PyFloat.of_Z 30)
  && PyFloat.leb (PyFloat.of_Z 0) (bd_amount_fit b)
  && PyFloat.leb (bd_amount_fit b) (PyFloat.of_Z 20)
  && PyFloat.leb (PyFloat.of_Z 0) (bd_stage b)
  && PyFloat.leb (bd_stage b) (PyFloat.of_Z 10).

(** The bound [MatchResult] declares on [match_score]: 0..100. *)
Definition MatchResult_score_in_bounds (m : Match) : bool :=
  PyFloat.leb (PyFloat.of_Z 0) (m_match_score m)
  && PyFloat.leb (m_match_score m) (PyFloat.of_Z 100).

(* ================================================================= *)
(** ** Kinds of floats *)

(** [math.isnan(x)] *)
Definition is_nan (x : PyFloat.float) : bool :=
  match x with S754_nan => true | _ => false end.

(** The sign bit of a float that is not NaN: [true] for negative values,
    -0.0 and -inf. *)
Definition negative (x : PyFloat.float) : bool :=
  match x with
  | S754_zero s | S754_infinity s | S754_finite s _ _ => s
  | S754_nan => false
  end.

(* ================================================================= *)
(** ** The migration helpers ([migrations/migration_script.py]) *)

(** A value [row.get(column)] hands to the helpers: [None] for a column the
    file does not have, a float (NaN for an empty cell), an integer, a
    boolean or a text. *)
Inductive cell :=
| CNone
| CFloat (f : PyFloat.float)
| CInt (z : Z)
| CBool (b : bool)
| CStr (s : string).

(** The first [n] characters of a text. *)
Fixpoint take (n : nat) (s : string) : string :=
  match n, s with
  | S n', String c s' => String c (take n' s')
  | _, _ => EmptyString
  end.

(** [s[:k]]: a negative [k] counts from the end. *)
Definition str_slice_to (k : Z) (s : string) : string :=
  if 0 <=? k then take (Z.to_nat k) s
  else take (String.length s - Z.to_nat (- k)) s.

Section Migrator.
(** [str(f)] for a float that is not NaN: the shortest decimal that reads
    back as [f].  The helpers only strip, compare and cut it. *)
Variable float_str : PyFloat.float -> string.

(** [pd.isna(value)] on a scalar *)
Definition isna (value : cell) : bool :=
  match value with
  | CNone => true
  | CFloat f => is_nan f
  | _ => false
  end.

(** [str(value)] *)
Definition cell_str (value : cell) : string :=
  match value with
  | CNone => "None"
  | CFloat f => float_str f
  | CInt z => PyStr.of_int z
  | CBool true => "True"
  | CBool false => "False"
  | CStr s => s
  end.

Definition safe_string (value : cell) (max_length : option Z)
  : option string :=
  if isna value || match value with CNone => true | _ => false end
  then None
  else
    let result := PyStr.strip (cell_str value) in
    if PyStr.is_empty result
       || PyStr.mem (PyStr.lower result) ["nan"; "null"; "none"]
    then None
    else
      match max_length with
      | Some n =>
          if negb (n =? 0) && (n <? PyStr.len result)
          then Some (str_slice_to (n - 3) result ++ "...")
          else Some result
      | None => Some result
      end.
(** The sector and the nationality [import_companies] stores for a row:
    [safe_string(...) or "General"], [safe_string(...) or "Unknown"]. *)
Definition imported_sector (value : cell) : string :=
  PyStr.or_default (safe_string value (Some 200)) "General".

Definition imported_nationality (value : cell) : string :=
  PyStr.or_default (safe_string value (Some 100)) "Unknown".
End Migrator.

(* ================================================================= *)
(** ** Vocabulary of the properties *)

(** Every character of [s] is whitespace. *)
Fixpoint all_space (s : string) : bool :=
  match s with
  | EmptyString => true
  | String c s' => PyStr.isspace c && all_space s'
  end.

(** A column that is [None] or trims to the empty string normalizes to the
    empty string. *)
Definition blank (x : option string) : Prop :=
  x = None \/ exists s, x = Some s /\ PyStr.strip s = "".

(** A catch-all token occurs in the target-sectors text. *)
Definition catch_all (target : string) : Prop :=
  PyStr.Substring "all" target \/ PyStr.Substring "general" target
  \/ PyStr.Substring "any" target.

(** A word of the company sector, longer than 3 characters, occurs in the
    target-sectors text. *)
Definition partial_word (company_sector target : string) : Prop :=
  exists word, In word (PyStr.split company_sector)
               /\ 3 < PyStr.len word /\ PyStr.Substring word target.

(** [x <= y] on floats, as the comparison operator decides it. *)
Definition fle (x y : PyFloat.float) : Prop := PyFloat.leb x y = true.

(** A float column that holds no amount: [None] or a zero. *)
Definition absent_or_zero (x : option PyFloat.float) : Prop :=
  x = None \/ exists f, x = Some f /\ PyFloat.eqb f (PyFloat.of_Z 0) = true.

(** The sum the code accumulates in [score], from [0.0], in its order. *)
Definition breakdown_sum (b : Breakdown) : PyFloat.float :=
  PyFloat.add
    (PyFloat.add
       (PyFloat.add (PyFloat.add (PyFloat.of_Z 0) (bd_geographic b))
                    (bd_sector b))
       (bd_amount_fit b))
    (bd_stage b).

(** Structural equality of two floats. *)
Definition same_float (x y : PyFloat.float) : bool :=
  match x, y with
  | S754_zero s, S754_zero s' => Bool.eqb s s'
  | S754_infinity s, S754_infinity s' => Bool.eqb s s'
  | S754_nan, S754_nan => true
  | S754_finite s m e, S754_finite s' m' e' =>
      Bool.eqb s s' && (m =? m')%positive && (e =? e')
  | _, _ => false
  end.

(** The whole scores four sub-scores can add up to: 25 to 100. *)
Definition score_range : list Z := map Z.of_nat (seq 25 76).

(** What is checked of two whole scores: the float comparisons are those of
    the whole numbers. *)
Definition pair_checks (a b : Z) : bool :=
  Bool.eqb (PyFloat.ltb (PyFloat.of_Z a) (PyFloat.of_Z b)) (a <? b)
  && Bool.eqb (PyFloat.leb (PyFloat.of_Z a) (PyFloat.of_Z b)) (a <=? b).

(** What is checked of one whole score: its float holds it exactly, rounds to
    itself at one decimal and passes the threshold test as the whole number
    does. *)
Definition score_checks (a : Z) : bool :=
  (PyFloat.to_Z (PyFloat.of_Z a) =? a)
  && same_float (PyFloat.round1 (PyFloat.of_Z a)) (PyFloat.of_Z a)
  && Bool.eqb (PyFloat.ltb (PyFloat.of_Z 30) (PyFloat.of_Z a)) (30 <? a)
  && forallb (pair_checks a) score_range.

(** The whole points of a match, read from its ['match_score']. *)
Definition match_points (m : Match) : Z := PyFloat.to_Z (m_match_score m).

(** The grant's score is above the threshold of 30. *)
Definition threshold_passed (company : Company) (grant : Grant) : bool :=
  match _calculate_match_score company grant with
  | inr (score, _) => PyFloat.ltb (PyFloat.of_Z 30) score
  | inl _ => false
  end.

(** The whole points of the entry [find_matches] builds for a grant: its
    score rounded to one decimal. *)
Definition grant_points (company : Company) (grant : Grant) : Z :=
  match _calculate_match_score company grant with
  | inr (score, _) => PyFloat.to_Z (PyFloat.round1 score)
  | inl _ => 0
  end.

(** [m] is the entry built for its grant, with a whole score above 30. *)
Definition match_of (company : Company) (m : Match) : Prop :=
  exists score breakdown,
    _calculate_match_score company (m_grant m) = inr (score, breakdown)
    /\ m = make_match (m_grant m) score breakdown
    /\ m_match_score m = score
    /\ score = PyFloat.of_Z (match_points m)
    /\ 30 < match_points m <= 100.

Section KeyOrder.
Context {A : Type}.
Variable lt : A -> A -> bool.
(** The order [lt] decides, read on whole numbers. *)
Variable key : A -> Z.

(** On the elements of [l], [lt] compares the keys. *)
Definition compares_keys (l : list A) : Prop :=
  forall x y, In x l -> In y l -> lt x y = (key x <? key y).

Definition ascending : list A -> Prop :=
  StronglySorted (fun a b => key a <= key b).

Definition descending : list A -> Prop :=
  StronglySorted (fun a b => key b <= key a).

(** The elements whose key is [v], in their order in the list. *)
Definition with_key (v : Z) (l : list A) : list A :=
  filter (fun a => key a =? v) l.

End KeyOrder.

(** No character of [s] is whitespace: [s] is at most one word. *)
Fixpoint no_space (s : string) : bool :=
  match s with
  | EmptyString => true
  | String c s' => negb (PyStr.isspace c) && no_space s'
  end.

(** Two values of a text column that differ at most in letter case and in
    whitespace around the text. *)
Definition same_text (x y : option string) : Prop :=
  x = y
  \/ exists before s after t,
       x = Some (before ++ s ++ after) /\ y = Some t
       /\ all_space before = true /\ all_space after = true
       /\ PyStr.lower s = PyStr.lower t.

(* ================================================================= *)
(** ** Sample records *)

(** The company and the grants of the scenarios: a Kenyan agriculture
    startup that needs 50000; an Africa-wide agriculture grant of 100000; a
    French mining grant of 1; a global, sector-agnostic grant of unknown
    amount. *)
Definition kenyan_startup : Company :=
  {| company_id_pk := 1;
     company_name := Some "Acme Agro";
     sector := Some "agriculture";
     business_stage := Some "startup";
     nationality := Some "Kenya";
     funding_need_usd := Some (PyFloat.of_Z 50000) |}.

Definition africa_wide_grant : Grant :=
  {| grant_id_pk := 1;
     program_name := Some "Agri Fund";
     institution_name := Some "Regional Bank";
     country := Some "";
     geographic_scope := Some "Africa-wide";
     estimated_value_amount := Some (PyFloat.of_Z 100000);
     repayment_required := Some false;
     target_sectors := Some "agriculture, agritech";
     website_url := None;
     data_source_url := None |}.

Definition french_mining_grant : Grant :=
  {| grant_id_pk := 2;
     program_name := Some "Mines";
     institution_name := None;
     country := Some "France";
     geographic_scope := Some "Europe";
     estimated_value_amount := Some (PyFloat.of_Z 1);
     repayment_required := Some true;
     target_sectors := Some "mining";
     website_url := None;
     data_source_url := None |}.

Definition global_grant : Grant :=
  {| grant_id_pk := 3;
     program_name := None;
     institution_name := None;
     country := None;
     geographic_scope := Some " GLOBAL ";
     estimated_value_amount := None;
     repayment_required := None;
     target_sectors := Some "General support for all sectors";
     website_url := None;
     data_source_url := None |}.

(** A second Africa-wide grant: it ties with the first one. *)
Definition africa_wide_twin : Grant :=
  {| grant_id_pk := 4;
     program_name := Some "Agri Fund II";
     institution_name := Some "Regional Bank";
     country := Some "";
     geographic_scope := Some "Africa-wide";
     estimated_value_amount := Some (PyFloat.of_Z 100000);
     repayment_required := Some false;
     target_sectors := Some "agriculture, agritech";
     website_url := None;
     data_source_url := None |}.

(** A company row with blank texts and no amount. *)
Definition blank_company : Company :=
  {| company_id_pk := 7;
     company_name := None;
     sector := Some "   ";
     business_stage := Some "";
     nationality := None;
     funding_need_usd := None |}.

Definition sample_db : Session :=
  {| companies := [kenyan_startup; blank_company];
     grants := [global_grant; africa_wide_twin; french_mining_grant;
                africa_wide_grant] |}.

(* ================================================================= *)
(** ** Facts about the string operations *)

Section StringFacts.
Import PyStr.

Lemma is_empty_true (s : string) : is_empty s = true <-> s = "".
Proof. destruct s; simpl; split; congruence. Qed.

Lemma prefix_iff_append (sub s : string) :
  String.prefix sub s = true <-> exists post, s = sub ++ post.
Proof.
  revert s; induction sub as [|a sub IH]; intros s.
  - destruct s; simpl; split; eauto.
  - destruct s as [|b s]; simpl.
    + split; [discriminate | intros [post H]; discriminate].
    + destruct (ascii_dec a b) as [->|Hab].
      * rewrite IH. split; intros [post H]; exists post; congruence.
      * split; [discriminate | intros [post H]; congruence].
Qed.

(** [sub in s] holds exactly when [s] is [pre ++ sub ++ post]. *)
Lemma contains_iff_Substring (sub s : string) :
  contains sub s = true <-> Substring sub s.
Proof.
  split.
  - induction s as [|a s IH]; cbn [contains].
    + rewrite is_empty_true. intros ->. now exists "", "".
    + intros H. apply orb_true_iff in H as [H|H].
      * apply prefix_iff_append in H as [post H]. now exists "", post.
      * destruct (IH H) as (pre & post & ->). now exists (String a pre), post.
  - intros (pre & post & ->).
    induction pre as [|a pre IH]; cbn [append contains].
    + remember (sub ++ post) as s eqn:E. destruct s as [|b s]; cbn [contains].
      * destruct sub; [reflexivity | discriminate].
      * apply orb_true_iff. left. rewrite E.
        apply prefix_iff_append. now exists post.
    + apply orb_true_iff. right. exact IH.
Qed.

Lemma not_contains_iff (sub s : string) :
  contains sub s = false <-> ~ Substring sub s.
Proof.
  rewrite <- contains_iff_Substring. destruct (contains sub s); split;
    congruence.
Qed.

(** The empty string is a substring of every string. *)
Lemma contains_empty (s : string) : contains "" s = true.
Proof. apply contains_iff_Substring. now exists "", s. Qed.

Lemma mem_iff_In (s : string) (l : list string) :
  mem s l = true <-> In s l.
Proof.
  unfold mem. rewrite existsb_exists. split.
  - intros (x & Hx & E). apply String.eqb_eq in E. now subst.
  - intros H. exists s. split; [assumption | apply String.eqb_refl].
Qed.

Lemma isspace_lower_char (c : ascii) : isspace (lower_char c) = isspace c.
Proof. destruct c as [[] [] [] [] [] [] [] []]; reflexivity. Qed.

Lemma lstrip_empty_iff (s : string) : lstrip s = "" <-> all_space s = true.
Proof.
  induction s as [|c s IH]; simpl; [tauto|].
  destruct (isspace c); simpl; [exact IH | split; discriminate].
Qed.

Lemma rstrip_lstrip_empty (s : string) : rstrip (lstrip s) = "" -> lstrip s = "".
Proof.
  induction s as [|c s IH]; simpl; [tauto|].
  destruct (isspace c) eqn:E; [exact IH|].
  simpl. rewrite E. discriminate.
Qed.

Lemma strip_empty_iff (s : string) : strip s = "" <-> all_space s = true.
Proof.
  unfold strip. rewrite <- lstrip_empty_iff. split.
  - apply rstrip_lstrip_empty.
  - intros ->. reflexivity.
Qed.

Lemma all_space_lower (s : string) : all_space (lower s) = all_space s.
Proof.
  induction s as [|c s IH]; simpl; [reflexivity|].
  now rewrite isspace_lower_char, IH.
Qed.

(** A text that trims to the empty string does so after lowercasing too. *)
Lemma strip_lower_empty (s : string) : strip s = "" -> strip (lower s) = "".
Proof. rewrite !strip_empty_iff, all_space_lower. tauto. Qed.
End StringFacts.

Lemma normalize_blank (x : option string) : blank x -> normalize x = "".
Proof.
  unfold normalize. intros [->|(s & -> & H)]; [reflexivity|].
  simpl. destruct (PyStr.is_empty s) eqn:E.
  - reflexivity.
  - now apply strip_lower_empty.
Qed.

(* ================================================================= *)
(** ** The sub-scores *)

(** Turns the substring and membership propositions of a goal and of its
    hypotheses into the boolean tests the code makes. *)
Ltac to_tests :=
  repeat match goal with
         | H : context [PyStr.Substring _ _] |- _ =>
             rewrite <- contains_iff_Substring in H
         | H : context [In _ _] |- _ => rewrite <- mem_iff_In in H
         | |- context [PyStr.Substring _ _] => rewrite <- contains_iff_Substring
         | |- context [In _ _] => rewrite <- mem_iff_In
         end.

Lemma catch_all_iff (target : string) :
  existsb (fun keyword => PyStr.contains keyword target)
          ["all"; "general"; "any"] = true <-> catch_all target.
Proof.
  unfold catch_all. to_tests. simpl. rewrite !orb_true_iff. intuition congruence.
Qed.

Lemma partial_word_iff (company_sector target : string) :
  existsb (fun word => PyStr.contains word target)
          (filter (fun word => 3 <? PyStr.len word)
                  (PyStr.split company_sector)) = true
  <-> partial_word company_sector target.
Proof.
  unfold partial_word. rewrite existsb_exists. split.
  - intros (w & Hin & Hc). apply filter_In in Hin as [Hin Hlen].
    exists w. apply Z.ltb_lt in Hlen. apply contains_iff_Substring in Hc. auto.
  - intros (w & Hin & Hlen & Hc). exists w. split.
    + apply filter_In. split; [assumption | now apply Z.ltb_lt].
    + now apply contains_iff_Substring.
Qed.

(** C3. The geography sub-score follows the ordered rules on the lowercased,
    trimmed texts: 40 when the scope contains "global"; else 40 when the
    nationality is a substring of the grant country or of the scope; else 35
    when the nationality is one of [africa_countries] and the scope contains
    "africa" or "african"; else 0.  A scope that contains "global" gives 40
    whatever the nationality. *)
Theorem score_geography_rules (company : Company) (grant : Grant) :
  let company_country := normalize (nationality company) in
  let grant_scope := normalize (geographic_scope grant) in
  let grant_country := normalize (country grant) in
  let is_global := PyStr.Substring "global" grant_scope in
  let same_country :=
    PyStr.Substring company_country grant_country
    \/ PyStr.Substring company_country grant_scope in
  let regional :=
    In company_country africa_countries
    /\ (PyStr.Substring "africa" grant_scope
        \/ PyStr.Substring "african" grant_scope) in
  (is_global -> _score_geography company grant = PyFloat.of_Z 40)
  /\ (~ is_global -> same_country ->
      _score_geography company grant = PyFloat.of_Z 40)
  /\ (~ is_global -> ~ same_country -> regional ->
      _score_geography company grant = PyFloat.of_Z 35)
  /\ (~ is_global -> ~ same_country -> ~ regional ->
      _score_geography company grant = PyFloat.of_Z 0)
  /\ (is_global -> forall other : Company,
        _score_geography other grant = PyFloat.of_Z 40).
Proof.
  cbv zeta. unfold _score_geography.
  set (cc := normalize (nationality company)).
  set (gs := normalize (geographic_scope grant)).
  set (gc := normalize (country grant)).
  to_tests.
  repeat split.
  - intros ->. reflexivity.
  - intros Hg Hs. destruct (PyStr.contains "global" gs); [congruence|].
    apply orb_true_iff in Hs. now rewrite Hs.
  - intros Hg Hs [Hin Hr].
    destruct (PyStr.contains "global" gs); [congruence|].
    rewrite <- orb_true_iff in Hs, Hr. apply not_true_is_false in Hs.
    now rewrite Hs, Hin, Hr.
  - intros Hg Hs Hr.
    destruct (PyStr.contains "global" gs); [congruence|].
    rewrite <- orb_true_iff in Hs, Hr. rewrite <- andb_true_iff in Hr.
    apply not_true_is_false in Hs, Hr. now rewrite Hs, Hr.
  - intros Hg other. now rewrite Hg.
Qed.

(** The third rule on the scenario pair: Kenya against "Africa-wide" is a
    regional match, 35. *)
Lemma score_geography_rules_witness :
  _score_geography kenyan_startup africa_wide_grant = PyFloat.of_Z 35
  /\ _score_geography blank_company global_grant = PyFloat.of_Z 40.
Proof.
  split.
  - apply (proj1 (proj2 (proj2
             (score_geography_rules kenyan_startup africa_wide_grant)))).
    + apply not_contains_iff. reflexivity.
    + intros [H|H]; apply contains_iff_Substring in H; discriminate H.
    + split.
      * apply mem_iff_In. reflexivity.
      * left. apply contains_iff_Substring. reflexivity.
  - apply (proj2 (proj2 (proj2 (proj2
             (score_geography_rules kenyan_startup global_grant))))).
    apply contains_iff_Substring. reflexivity.
Defined.

(** C4. The sector sub-score follows the ordered rules on the lowercased,
    trimmed texts: 25 when the target sectors contain "all", "general" or
    "any" (checked first); else 30 when the company sector is a substring of
    the target sectors; else 20 when a whitespace-delimited word of the
    company sector longer than 3 characters is one; else 10.  It is never 0. *)
Theorem score_sector_rules (company : Company) (grant : Grant) :
  let company_sector := normalize (sector company) in
  let target := normalize (target_sectors grant) in
  let exact := PyStr.Substring company_sector target in
  let partial := partial_word company_sector target in
  (catch_all target -> _score_sector company grant = PyFloat.of_Z 25)
  /\ (~ catch_all target -> exact ->
      _score_sector company grant = PyFloat.of_Z 30)
  /\ (~ catch_all target -> ~ exact -> partial ->
      _score_sector company grant = PyFloat.of_Z 20)
  /\ (~ catch_all target -> ~ exact -> ~ partial ->
      _score_sector company grant = PyFloat.of_Z 10)
  /\ PyFloat.eqb (_score_sector company grant) (PyFloat.of_Z 0) = false.
Proof.
  cbv zeta. unfold _score_sector.
  set (cs := normalize (sector company)).
  set (ts := normalize (target_sectors grant)).
  rewrite <- catch_all_iff, <- partial_word_iff, <- contains_iff_Substring.
  destruct (existsb _ ["all"; "general"; "any"]);
    destruct (PyStr.contains cs ts);
    destruct (existsb _ (filter _ _));
    repeat split; intros; try reflexivity; congruence.
Qed.

(** The catch-all rule comes first: "technology"-like sectors against
    "general support for all sectors" score 25; an exact match scores 30. *)
Lemma score_sector_rules_witness :
  _score_sector kenyan_startup global_grant = PyFloat.of_Z 25
  /\ _score_sector kenyan_startup africa_wide_grant = PyFloat.of_Z 30.
Proof.
  split.
  - apply (proj1 (score_sector_rules kenyan_startup global_grant)).
    left. apply contains_iff_Substring. reflexivity.
  - apply (proj1 (proj2 (score_sector_rules kenyan_startup africa_wide_grant))).
    + intros H. apply catch_all_iff in H. discriminate H.
    + apply contains_iff_Substring. reflexivity.
Defined.

(** C6. The stage sub-score on the lowercased, trimmed business stage is 10
    for "startup" and "early growth", 8 for "idea", 9 for "growth",
    "scale-up" and "expansion", and 7 for every other value, the empty
    string included; the grant plays no part. *)
Theorem score_business_stage_rules (company : Company) (grant : Grant) :
  let stage := normalize (business_stage company) in
  (stage = "startup" \/ stage = "early growth" ->
   _score_business_stage company grant = PyFloat.of_Z 10)
  /\ (stage = "idea" -> _score_business_stage company grant = PyFloat.of_Z 8)
  /\ (stage = "growth" \/ stage = "scale-up" \/ stage = "expansion" ->
      _score_business_stage company grant = PyFloat.of_Z 9)
  /\ (~ In stage ["startup"; "early growth"; "idea"; "growth"; "scale-up";
                  "expansion"] ->
      _score_business_stage company grant = PyFloat.of_Z 7)
  /\ (stage = "" -> _score_business_stage company grant = PyFloat.of_Z 7)
  /\ (forall other : Grant,
        _score_business_stage company other
        = _score_business_stage company grant).
Proof.
  cbv zeta. unfold _score_business_stage.
  set (stage := normalize (business_stage company)).
  repeat split.
  - intros [->| ->]; reflexivity.
  - intros ->; reflexivity.
  - intros [->|[->| ->]]; reflexivity.
  - clearbody stage. intros Hn.
    destruct (PyStr.mem stage ["startup"; "early growth"]) eqn:E1.
    { apply mem_iff_In in E1. exfalso. apply Hn.
      destruct E1 as [E|[E|[]]]; rewrite <- E; simpl; auto 10. }
    destruct (String.eqb stage "idea") eqn:E2.
    { apply String.eqb_eq in E2. exfalso. apply Hn. rewrite E2.
      simpl; auto 10. }
    destruct (PyStr.mem stage ["growth"; "scale-up"; "expansion"]) eqn:E3.
    { apply mem_iff_In in E3. exfalso. apply Hn.
      destruct E3 as [E|[E|[E|[]]]]; rewrite <- E; simpl; auto 10. }
    reflexivity.
  - intros ->; reflexivity.
Qed.

Lemma score_business_stage_rules_witness :
  _score_business_stage kenyan_startup africa_wide_grant = PyFloat.of_Z 10
  /\ _score_business_stage blank_company africa_wide_grant = PyFloat.of_Z 7.
Proof.
  split.
  - apply (proj1 (score_business_stage_rules kenyan_startup africa_wide_grant)).
    left. reflexivity.
  - apply (proj1 (proj2 (proj2 (proj2 (proj2
             (score_business_stage_rules blank_company africa_wide_grant)))))).
    reflexivity.
Defined.

(** C9. A company whose nationality is null or trims to the empty string gets
    the full geography sub-score of 40 against every grant: the empty string
    is a substring of every grant country, so the second rule fires when the
    first did not. *)
Theorem score_geography_blank_nationality (company : Company) (grant : Grant) :
  blank (nationality company) ->
  _score_geography company grant = PyFloat.of_Z 40
  /\ PyStr.Substring (normalize (nationality company))
                     (normalize (country grant))
  /\ PyStr.Substring (normalize (nationality company))
                     (normalize (geographic_scope grant)).
Proof.
  intros H. apply normalize_blank in H. unfold _score_geography. rewrite H.
  rewrite !contains_empty. simpl.
  split; [now destruct (PyStr.contains "global" _)|].
  split; apply contains_iff_Substring, contains_empty.
Qed.

Lemma score_geography_blank_nationality_witness :
  blank (nationality blank_company)
  /\ _score_geography blank_company french_mining_grant = PyFloat.of_Z 40.
Proof.
  assert (H : blank (nationality blank_company)) by (left; reflexivity).
  split; [exact H|].
  exact (proj1 (score_geography_blank_nationality
                  blank_company french_mining_grant H)).
Defined.

(** C10. A company whose sector is null or trims to the empty string gets a
    sector sub-score of 25 when the target sectors contain "all", "general"
    or "any", and 30 otherwise: the empty string is a substring of every
    target-sectors text, so the 20 and 10 point rules are never reached. *)
Theorem score_sector_blank_sector (company : Company) (grant : Grant) :
  blank (sector company) ->
  (catch_all (normalize (target_sectors grant)) ->
   _score_sector company grant = PyFloat.of_Z 25)
  /\ (~ catch_all (normalize (target_sectors grant)) ->
      _score_sector company grant = PyFloat.of_Z 30)
  /\ _score_sector company grant <> PyFloat.of_Z 20
  /\ _score_sector company grant <> PyFloat.of_Z 10.
Proof.
  intros H. apply normalize_blank in H. unfold _score_sector. rewrite H.
  rewrite contains_empty, <- catch_all_iff.
  destruct (existsb _ ["all"; "general"; "any"]);
    repeat split; intros; try reflexivity; try congruence; discriminate.
Qed.

Lemma score_sector_blank_sector_witness :
  blank (sector blank_company)
  /\ _score_sector blank_company french_mining_grant = PyFloat.of_Z 30
  /\ _score_sector blank_company global_grant = PyFloat.of_Z 25.
Proof.
  assert (H : blank (sector blank_company)).
  { right. exists "   ". split; reflexivity. }
  split; [exact H|]. split.
  - apply (proj1 (proj2 (score_sector_blank_sector
                           blank_company french_mining_grant H))).
    intros C. apply catch_all_iff in C. discriminate C.
  - apply (proj1 (score_sector_blank_sector blank_company global_grant H)).
    left. apply contains_iff_Substring. reflexivity.
Defined.

(** The literals of the ratio bands: [0.1] is 0x1.999999999999ap-4 and
    [0.05] is 0x1.999999999999ap-5. *)
Example literal_one_tenth :
  PyFloat.decimal 1 10 = S754_finite false 7205759403792794 (-56)
  /\ PyFloat.decimal 5 100 = S754_finite false 7205759403792794 (-57).
Proof. split; reflexivity. Qed.

(** [round(x, 1)] on a few values: 0.25 rounds to 0.2 (half to even), 0.35
    (a double just below 0.35) to 0.3, 2.675 to 2.7, and 95.0 to itself. *)
Example round1_samples :
  PyFloat.round1 (PyFloat.decimal 25 100) = PyFloat.decimal 2 10
  /\ PyFloat.round1 (PyFloat.decimal 35 100) = PyFloat.decimal 3 10
  /\ PyFloat.round1 (PyFloat.decimal 2675 1000) = PyFloat.decimal 27 10
  /\ PyFloat.round1 (PyFloat.of_Z 95) = PyFloat.of_Z 95.
Proof. repeat split; reflexivity. Qed.

Lemma or_default_zero (x : option PyFloat.float) :
  absent_or_zero x ->
  PyFloat.or_default x (PyFloat.of_Z 0) = PyFloat.of_Z 0.
Proof.
  intros [->|(f & -> & H)]; [reflexivity|].
  unfold PyFloat.or_default, PyFloat.truthy. now rewrite H.
Qed.

Lemma or_default_nonzero (f : PyFloat.float) :
  PyFloat.eqb f (PyFloat.of_Z 0) = false ->
  PyFloat.or_default (Some f) (PyFloat.of_Z 0) = f.
Proof.
  intros H. unfold PyFloat.or_default, PyFloat.truthy. now rewrite H.
Qed.

(** After [x or 0.0] the value is a zero exactly when the column held no
    amount. *)
Lemma or_default_eqb_zero (x : option PyFloat.float) :
  PyFloat.eqb (PyFloat.or_default x (PyFloat.of_Z 0)) (PyFloat.of_Z 0) = true
  <-> absent_or_zero x.
Proof.
  split.
  - destruct x as [f|]; [|now left]. intros H. right. exists f. split; [reflexivity|].
    unfold PyFloat.or_default, PyFloat.truthy in H.
    destruct (PyFloat.eqb f (PyFloat.of_Z 0)) eqn:E; [reflexivity|].
    change (PyFloat.eqb f (PyFloat.of_Z 0) = true) in H. congruence.
  - intros H. now rewrite or_default_zero.
Qed.

(** C5. The amount-fit sub-score is 15 whenever the funding need or the
    available amount is zero or absent; otherwise, with
    [ratio = need / available], it is 20 when [0.1 <= ratio <= 2.0], else 15
    when [0.05 <= ratio <= 5.0], else 8. *)
Theorem score_funding_amount_rules (company : Company) (grant : Grant) :
  (absent_or_zero (funding_need_usd company)
   \/ absent_or_zero (estimated_value_amount grant) ->
   _score_funding_amount company grant = inr (PyFloat.of_Z 15))
  /\ (forall need available : PyFloat.float,
        funding_need_usd company = Some need ->
        estimated_value_amount grant = Some available ->
        PyFloat.eqb need (PyFloat.of_Z 0) = false ->
        PyFloat.eqb available (PyFloat.of_Z 0) = false ->
        let ratio := PyFloat.fdiv need available in
        let perfect :=
          fle (PyFloat.decimal 1 10) ratio /\ fle ratio (PyFloat.of_Z 2) in
        let good :=
          fle (PyFloat.decimal 5 100) ratio /\ fle ratio (PyFloat.of_Z 5) in
        (perfect ->
         _score_funding_amount company grant = inr (PyFloat.of_Z 20))
        /\ (~ perfect -> good ->
            _score_funding_amount company grant = inr (PyFloat.of_Z 15))
        /\ (~ perfect -> ~ good ->
            _score_funding_amount company grant = inr (PyFloat.of_Z 8))).
Proof.
  split.
  - intros H. unfold _score_funding_amount.
    destruct H as [H|H]; apply or_default_eqb_zero in H; rewrite H.
    + now rewrite orb_true_r.
    + reflexivity.
  - intros need available Hn Ha Zn Za. cbv zeta.
    unfold _score_funding_amount, truediv. rewrite Hn, Ha.
    rewrite !or_default_nonzero by assumption. rewrite Zn, Za. simpl.
    unfold amount_fit_of_ratio, fle.
    rewrite <- !andb_true_iff.
    destruct (_ && _); destruct (_ && _);
      repeat split; intros; try reflexivity; congruence.
Qed.

(** A need of 50000 against 100000 is a ratio of 0.5, a perfect fit; an
    absent need gets the partial credit. *)
Lemma score_funding_amount_rules_witness :
  _score_funding_amount kenyan_startup africa_wide_grant
  = inr (PyFloat.of_Z 20)
  /\ _score_funding_amount kenyan_startup french_mining_grant
     = inr (PyFloat.of_Z 8)
  /\ _score_funding_amount blank_company africa_wide_grant
     = inr (PyFloat.of_Z 15).
Proof.
  split; [|split].
  - apply (proj2 (score_funding_amount_rules kenyan_startup africa_wide_grant)
             (PyFloat.of_Z 50000) (PyFloat.of_Z 100000));
      try reflexivity.
    split; reflexivity.
  - apply (proj2 (score_funding_amount_rules kenyan_startup french_mining_grant)
             (PyFloat.of_Z 50000) (PyFloat.of_Z 1));
      try reflexivity.
    + intros [_ H]. discriminate H.
    + intros [_ H]. discriminate H.
  - apply (proj1 (score_funding_amount_rules blank_company africa_wide_grant)).
    left. left. reflexivity.
Defined.

(* ================================================================= *)
(** ** The composite score *)

(** Each sub-score takes one of a few whole values. *)
Lemma score_geography_values (company : Company) (grant : Grant) :
  exists k, In k [0; 35; 40] /\ _score_geography company grant = PyFloat.of_Z k.
Proof.
  unfold _score_geography.
  destruct (PyStr.contains "global" _); [exists 40; simpl; auto|].
  destruct (_ || _); [exists 40; simpl; auto|].
  destruct (_ && _); [exists 35 | exists 0]; simpl; auto.
Qed.

Lemma score_sector_values (company : Company) (grant : Grant) :
  exists k, In k [10; 20; 25; 30]
            /\ _score_sector company grant = PyFloat.of_Z k.
Proof.
  unfold _score_sector.
  destruct (existsb _ ["all"; "general"; "any"]); [exists 25; simpl; auto|].
  destruct (PyStr.contains _ _); [exists 30; simpl; auto 6|].
  destruct (existsb _ _); [exists 20 | exists 10]; simpl; auto.
Qed.

Lemma amount_fit_of_ratio_values (ratio : PyFloat.float) :
  exists k, In k [8; 15; 20] /\ amount_fit_of_ratio ratio = PyFloat.of_Z k.
Proof.
  unfold amount_fit_of_ratio.
  destruct (_ && _); [exists 20; simpl; auto|].
  destruct (_ && _); [exists 15 | exists 8]; simpl; auto.
Qed.

(** The amount-fit sub-score is computed without an exception: the division
    is made on a non-zero divisor only. *)
Lemma score_funding_amount_cases (company : Company) (grant : Grant) :
  let need :=
    PyFloat.or_default (funding_need_usd company) (PyFloat.of_Z 0) in
  let available :=
    PyFloat.or_default (estimated_value_amount grant) (PyFloat.of_Z 0) in
  ((PyFloat.eqb available (PyFloat.of_Z 0) = true
    \/ PyFloat.eqb need (PyFloat.of_Z 0) = true)
   /\ _score_funding_amount company grant = inr (PyFloat.of_Z 15))
  \/ (PyFloat.eqb available (PyFloat.of_Z 0) = false
      /\ PyFloat.eqb need (PyFloat.of_Z 0) = false
      /\ truediv need available = inr (PyFloat.fdiv need available)
      /\ _score_funding_amount company grant
         = inr (amount_fit_of_ratio (PyFloat.fdiv need available))).
Proof.
  cbv zeta. unfold _score_funding_amount, truediv.
  destruct (PyFloat.eqb (PyFloat.or_default (estimated_value_amount grant) _) _);
    [left; auto|].
  destruct (PyFloat.eqb (PyFloat.or_default (funding_need_usd company) _) _);
    [left; auto | right; auto].
Qed.

Lemma score_funding_amount_values (company : Company) (grant : Grant) :
  exists k, In k [8; 15; 20]
            /\ _score_funding_amount company grant = inr (PyFloat.of_Z k).
Proof.
  destruct (score_funding_amount_cases company grant)
    as [[_ ->]|(_ & _ & _ & ->)].
  - exists 15; simpl; auto.
  - destruct (amount_fit_of_ratio_values
                (PyFloat.fdiv
                   (PyFloat.or_default (funding_need_usd company) (PyFloat.of_Z 0))
                   (PyFloat.or_default (estimated_value_amount grant)
                                       (PyFloat.of_Z 0))))
      as (k & Hk & ->).
    now exists k.
Qed.

Lemma score_business_stage_values (company : Company) (grant : Grant) :
  exists k, In k [7; 8; 9; 10]
            /\ _score_business_stage company grant = PyFloat.of_Z k.
Proof.
  unfold _score_business_stage.
  destruct (PyStr.mem _ ["startup"; "early growth"]); [exists 10; simpl; auto 6|].
  destruct (String.eqb _ "idea"); [exists 8; simpl; auto|].
  destruct (PyStr.mem _ _); [exists 9 | exists 7]; simpl; auto.
Qed.

(** The whole values of the four sub-scores of a pair, with the score they
    add up to. *)
Lemma calculate_match_score_values (company : Company) (grant : Grant) :
  exists kg ks ka kt,
    In kg [0; 35; 40] /\ In ks [10; 20; 25; 30] /\ In ka [8; 15; 20]
    /\ In kt [7; 8; 9; 10]
    /\ _calculate_match_score company grant
       = inr (PyFloat.of_Z (kg + ks + ka + kt),
              {| bd_geographic := PyFloat.of_Z kg;
                 bd_sector := PyFloat.of_Z ks;
                 bd_amount_fit := PyFloat.of_Z ka;
                 bd_stage := PyFloat.of_Z kt |}).
Proof.
  destruct (score_geography_values company grant) as (kg & Hg & Eg).
  destruct (score_sector_values company grant) as (ks & Hs & Es).
  destruct (score_funding_amount_values company grant) as (ka & Ha & Ea).
  destruct (score_business_stage_values company grant) as (kt & Ht & Et).
  exists kg, ks, ka, kt. repeat (split; [assumption|]).
  unfold _calculate_match_score. rewrite Eg, Es, Ea, Et.
  clear Eg Es Ea Et. simpl in Hg, Hs, Ha, Ht.
  repeat match goal with
         | H : _ \/ _ |- _ => destruct H as [H|H]
         | H : False |- _ => destruct H
         end; subst; vm_compute; reflexivity.
Qed.

(** The breakdown holds the four sub-scores of the pair. *)
Lemma calculate_match_score_breakdown (company : Company) (grant : Grant)
    (score : PyFloat.float) (breakdown : Breakdown) :
  _calculate_match_score company grant = inr (score, breakdown) ->
  bd_geographic breakdown = _score_geography company grant
  /\ bd_sector breakdown = _score_sector company grant
  /\ _score_funding_amount company grant = inr (bd_amount_fit breakdown)
  /\ bd_stage breakdown = _score_business_stage company grant
  /\ score = PyFloat.min (PyFloat.of_Z 100) (breakdown_sum breakdown).
Proof.
  unfold _calculate_match_score.
  destruct (_score_funding_amount company grant) as [e|amount]; [discriminate|].
  intros H. injection H as <- <-. repeat split.
Qed.

(** C2. The score returned for a pair is [min(100, geographic + sector +
    amount_fit + stage)] over the breakdown returned with it; the four values
    stay within their caps 40, 30, 20 and 10, so the sum never exceeds 100,
    the clamp never triggers and the score is the plain sum. *)
Theorem calculate_match_score_sum (company : Company) (grant : Grant) :
  exists score breakdown,
    _calculate_match_score company grant = inr (score, breakdown)
    /\ score = PyFloat.min (PyFloat.of_Z 100) (breakdown_sum breakdown)
    /\ fle (breakdown_sum breakdown) (PyFloat.of_Z 100)
    /\ score = breakdown_sum breakdown
    /\ exists kg ks ka kt,
         bd_geographic breakdown = PyFloat.of_Z kg /\ 0 <= kg <= 40
         /\ bd_sector breakdown = PyFloat.of_Z ks /\ 0 <= ks <= 30
         /\ bd_amount_fit breakdown = PyFloat.of_Z ka /\ 0 <= ka <= 20
         /\ bd_stage breakdown = PyFloat.of_Z kt /\ 0 <= kt <= 10
         /\ score = PyFloat.of_Z (kg + ks + ka + kt).
Proof.
  destruct (calculate_match_score_values company grant)
    as (kg & ks & ka & kt & Hg & Hs & Ha & Ht & E).
  eexists _, _. split; [exact E|].
  assert (R : PyFloat.of_Z (kg + ks + ka + kt)
              = breakdown_sum
                  {| bd_geographic := PyFloat.of_Z kg;
                     bd_sector := PyFloat.of_Z ks;
                     bd_amount_fit := PyFloat.of_Z ka;
                     bd_stage := PyFloat.of_Z kt |}
              /\ PyFloat.leb (PyFloat.of_Z (kg + ks + ka + kt))
                             (PyFloat.of_Z 100) = true
              /\ PyFloat.ltb (PyFloat.of_Z (kg + ks + ka + kt))
                             (PyFloat.of_Z 100)
                 = (kg + ks + ka + kt <? 100)
              /\ (0 <= kg <= 40 /\ 0 <= ks <= 30)
              /\ (0 <= ka <= 20 /\ 0 <= kt <= 10)).
  { clear E. simpl in Hg, Hs, Ha, Ht.
    repeat match goal with
           | H : _ \/ _ |- _ => destruct H as [H|H]
           | H : False |- _ => destruct H
           end; subst; vm_compute; intuition congruence. }
  destruct R as (Rsum & Rle & Rlt & (Bg & Bs) & (Ba & Bt)).
  rewrite <- Rsum.
  assert (Hmin : PyFloat.of_Z (kg + ks + ka + kt)
                 = PyFloat.min (PyFloat.of_Z 100)
                     (PyFloat.of_Z (kg + ks + ka + kt))).
  { unfold PyFloat.min. rewrite Rlt.
    destruct (Z.ltb_spec (kg + ks + ka + kt) 100) as [_|Hge]; [reflexivity|].
    replace (kg + ks + ka + kt) with 100 by lia. reflexivity. }
  split; [exact Hmin|]. split; [exact Rle|]. split; [reflexivity|].
  exists kg, ks, ka, kt. simpl. intuition.
Qed.

(** The scenario pair scores 35 + 30 + 20 + 10 = 95. *)
Example calculate_match_score_scenario :
  _calculate_match_score kenyan_startup africa_wide_grant
  = inr (PyFloat.of_Z 95,
         {| bd_geographic := PyFloat.of_Z 35;
            bd_sector := PyFloat.of_Z 30;
            bd_amount_fit := PyFloat.of_Z 20;
            bd_stage := PyFloat.of_Z 10 |}).
Proof. reflexivity. Qed.

(** C7. Scoring a pair always returns a score and a breakdown and never
    raises, null or empty texts and zero or absent amounts included; the
    division [need / available] is made only when both are non-zero. *)
Theorem calculate_match_score_total (company : Company) (grant : Grant) :
  (exists score breakdown,
     _calculate_match_score company grant = inr (score, breakdown))
  /\ (exists amount, _score_funding_amount company grant = inr amount)
  /\ let need :=
       PyFloat.or_default (funding_need_usd company) (PyFloat.of_Z 0) in
     let available :=
       PyFloat.or_default (estimated_value_amount grant) (PyFloat.of_Z 0) in
     ((PyFloat.eqb available (PyFloat.of_Z 0) = true
       \/ PyFloat.eqb need (PyFloat.of_Z 0) = true)
      /\ _score_funding_amount company grant = inr (PyFloat.of_Z 15))
     \/ (PyFloat.eqb available (PyFloat.of_Z 0) = false
         /\ PyFloat.eqb need (PyFloat.of_Z 0) = false
         /\ truediv need available = inr (PyFloat.fdiv need available)
         /\ _score_funding_amount company grant
            = inr (amount_fit_of_ratio (PyFloat.fdiv need available))).
Proof.
  split; [|split].
  - destruct (calculate_match_score_values company grant)
      as (kg & ks & ka & kt & _ & _ & _ & _ & E).
    eauto.
  - destruct (score_funding_amount_values company grant) as (k & _ & E).
    eauto.
  - apply score_funding_amount_cases.
Qed.

(** A record with nothing filled in is scored all the same. *)
Example calculate_match_score_blank :
  _calculate_match_score blank_company global_grant
  = inr (PyFloat.of_Z 87,
         {| bd_geographic := PyFloat.of_Z 40;
            bd_sector := PyFloat.of_Z 25;
            bd_amount_fit := PyFloat.of_Z 15;
            bd_stage := PyFloat.of_Z 7 |}).
Proof. reflexivity. Qed.

(* ================================================================= *)
(** ** Facts about sorting and slicing *)

Lemma StronglySorted_app_intro {A : Type} (R : A -> A -> Prop) (l1 l2 : list A) :
  StronglySorted R l1 -> StronglySorted R l2 ->
  (forall a b, In a l1 -> In b l2 -> R a b) ->
  StronglySorted R (l1 ++ l2)%list.
Proof.
  intros H1 H2 H. induction H1 as [|a l1 H1 IH Ha]; simpl; [assumption|].
  constructor.
  - apply IH. intros x y Hx Hy. apply H; simpl; auto.
  - apply Forall_app. split; [assumption|].
    apply Forall_forall. intros b Hb. apply H; simpl; auto.
Qed.

Lemma StronglySorted_app_elim {A : Type} (R : A -> A -> Prop) (l1 l2 : list A) :
  StronglySorted R (l1 ++ l2)%list -> StronglySorted R l1.
Proof.
  induction l1 as [|a l1 IH]; simpl; intros H; [constructor|].
  apply StronglySorted_inv in H as [H Ha]. constructor; [auto|].
  apply Forall_app in Ha. tauto.
Qed.

Section SortingFacts.
Context {A : Type}.
Variable lt : A -> A -> bool.
(** The order [lt] decides, read on whole numbers. *)
Variable key : A -> Z.

Lemma insert_In (x y : A) (l : list A) :
  In y (PyList.insert lt x l) <-> y = x \/ In y l.
Proof.
  induction l as [|z l IH]; simpl.
  - intuition.
  - destruct (lt x z); simpl; [intuition | rewrite IH; intuition].
Qed.

Lemma fold_insert_In (y : A) (l acc : list A) :
  In y (fold_left (fun acc x => PyList.insert lt x acc) l acc)
  <-> In y l \/ In y acc.
Proof.
  revert acc; induction l as [|x l IH]; intros acc; simpl.
  - intuition.
  - rewrite IH, insert_In. intuition.
Qed.

Lemma sorted_In (y : A) (l : list A) : In y (PyList.sorted lt l) <-> In y l.
Proof. unfold PyList.sorted. rewrite fold_insert_In. simpl. intuition. Qed.

Lemma sorted_reverse_In (y : A) (l : list A) :
  In y (PyList.sorted_reverse lt l) <-> In y l.
Proof.
  unfold PyList.sorted_reverse. now rewrite <- in_rev, sorted_In, <- in_rev.
Qed.

Lemma insert_ascending (x : A) (l : list A) :
  (forall y, In y l -> lt x y = (key x <? key y)) ->
  ascending key l -> ascending key (PyList.insert lt x l).
Proof.
  unfold ascending. intros Hc Hs.
  induction Hs as [|z l Hs IH Hz]; simpl.
  - repeat constructor.
  - rewrite (Hc z) by (simpl; auto).
    destruct (Z.ltb_spec (key x) (key z)) as [Hlt|Hge].
    + constructor; [now constructor|].
      constructor; [lia|].
      rewrite Forall_forall in *. intros w Hw. specialize (Hz w Hw). lia.
    + constructor.
      * apply IH. intros y Hy. apply Hc. simpl; auto.
      * rewrite Forall_forall in *. intros w Hw.
        apply insert_In in Hw as [->|Hw]; [lia | auto].
Qed.

Lemma fold_insert_ascending (l acc : list A) :
  compares_keys lt key (l ++ acc)%list -> ascending key acc ->
  ascending key (fold_left (fun acc x => PyList.insert lt x acc) l acc).
Proof.
  revert acc; induction l as [|x l IH]; intros acc Hc Hs; simpl; [assumption|].
  apply IH.
  - intros a b Ha Hb. apply Hc.
    + apply in_app_iff in Ha as [Ha|Ha]; simpl; rewrite in_app_iff; auto.
      apply insert_In in Ha as [->|Ha]; auto.
    + apply in_app_iff in Hb as [Hb|Hb]; simpl; rewrite in_app_iff; auto.
      apply insert_In in Hb as [->|Hb]; auto.
  - apply insert_ascending; [|assumption].
    intros y Hy. apply Hc; simpl; [auto | rewrite in_app_iff; auto].
Qed.

Lemma sorted_ascending (l : list A) :
  compares_keys lt key l -> ascending key (PyList.sorted lt l).
Proof.
  intros Hc. apply fold_insert_ascending; [|constructor].
  now rewrite app_nil_r.
Qed.

(** Among equal keys an inserted element comes last. *)
Lemma insert_with_key (v : Z) (x : A) (l : list A) :
  (forall y, In y l -> lt x y = (key x <? key y)) ->
  ascending key l ->
  with_key key v (PyList.insert lt x l)
  = (with_key key v l ++ with_key key v [x])%list.
Proof.
  unfold ascending, with_key. intros Hc Hs.
  induction Hs as [|z l Hs IH Hz]; [reflexivity|].
  cbn [PyList.insert]. rewrite (Hc z) by (simpl; auto).
  destruct (Z.ltb_spec (key x) (key z)) as [Hlt|Hge].
  - cbn [filter]. destruct (Z.eqb_spec (key x) v) as [Ev|Nv].
    + assert (N : filter (fun a => key a =? v) (z :: l) = []).
      { apply Forall_cons with (x := z) in Hz; [|lia].
        clear - Hz Hlt Ev. induction Hz as [|w l' Hw _ IH']; [reflexivity|].
        cbn [filter]. destruct (Z.eqb_spec (key w) v); [lia | exact IH']. }
      cbn [filter] in N. rewrite N. reflexivity.
    + now rewrite app_nil_r.
  - cbn [filter]. rewrite IH by (intros y Hy; apply Hc; simpl; auto).
    cbn [filter]. destruct (key z =? v); reflexivity.
Qed.

Lemma fold_insert_with_key (v : Z) (l acc : list A) :
  compares_keys lt key (l ++ acc)%list -> ascending key acc ->
  with_key key v (fold_left (fun acc x => PyList.insert lt x acc) l acc)
  = (with_key key v acc ++ with_key key v l)%list.
Proof.
  revert acc; induction l as [|x l IH]; intros acc Hc Hs; cbn [fold_left].
  - unfold with_key. simpl. now rewrite app_nil_r.
  - assert (Hx : forall y, In y acc -> lt x y = (key x <? key y)).
    { intros y Hy. apply Hc; simpl; [auto | rewrite in_app_iff; auto]. }
    rewrite IH.
    + rewrite insert_with_key by assumption.
      rewrite <- app_assoc. f_equal. unfold with_key. simpl.
      destruct (key x =? v); reflexivity.
    + intros a b Ha Hb. apply Hc.
      * apply in_app_iff in Ha as [Ha|Ha]; simpl; rewrite in_app_iff; auto.
        apply insert_In in Ha as [->|Ha]; auto.
      * apply in_app_iff in Hb as [Hb|Hb]; simpl; rewrite in_app_iff; auto.
        apply insert_In in Hb as [->|Hb]; auto.
    + now apply insert_ascending.
Qed.

(** [sorted] is stable. *)
Lemma sorted_with_key (v : Z) (l : list A) :
  compares_keys lt key l -> with_key key v (PyList.sorted lt l) = with_key key v l.
Proof.
  intros Hc. unfold PyList.sorted. rewrite fold_insert_with_key.
  - reflexivity.
  - now rewrite app_nil_r.
  - constructor.
Qed.

Lemma compares_keys_rev (l : list A) : compares_keys lt key l -> compares_keys lt key (rev l).
Proof. intros Hc x y Hx Hy. apply Hc; now apply in_rev. Qed.

Lemma ascending_rev (l : list A) : ascending key l -> descending key (rev l).
Proof.
  unfold ascending, descending. intros H.
  induction H as [|a l H IH Ha]; simpl; [constructor|].
  apply StronglySorted_app_intro; [assumption | repeat constructor |].
  intros x y Hx [<-|[]]. apply in_rev in Hx.
  rewrite Forall_forall in Ha. auto.
Qed.

(** [sorted(..., reverse=True)] sorts by non-increasing key ... *)
Lemma sorted_reverse_descending (l : list A) :
  compares_keys lt key l -> descending key (PyList.sorted_reverse lt l).
Proof.
  intros Hc. apply ascending_rev, sorted_ascending, compares_keys_rev, Hc.
Qed.

(** ... and keeps the elements of equal key in their original order. *)
Lemma sorted_reverse_with_key (v : Z) (l : list A) :
  compares_keys lt key l -> with_key key v (PyList.sorted_reverse lt l) = with_key key v l.
Proof.
  intros Hc. unfold PyList.sorted_reverse, with_key.
  rewrite filter_rev. fold (with_key key v (PyList.sorted lt (rev l))).
  rewrite sorted_with_key by now apply compares_keys_rev.
  unfold with_key. now rewrite filter_rev, rev_involutive.
Qed.

Lemma firstn_descending (n : nat) (l : list A) :
  descending key l -> descending key (firstn n l).
Proof.
  intros H. apply StronglySorted_app_elim with (l2 := skipn n l).
  now rewrite firstn_skipn.
Qed.

Lemma firstn_with_key (v : Z) (n : nat) (l : list A) :
  exists rest, with_key key v l = (with_key key v (firstn n l) ++ rest)%list.
Proof.
  exists (with_key key v (skipn n l)). unfold with_key.
  now rewrite <- filter_app, firstn_skipn.
Qed.
End SortingFacts.

Lemma In_firstn_inv {A : Type} (n : nat) (l : list A) (x : A) :
  In x (firstn n l) -> In x l.
Proof.
  intros H. rewrite <- (firstn_skipn n l). apply in_or_app. now left.
Qed.

Lemma slice_to_firstn {A : Type} (n : Z) (l : list A) :
  exists k, PyList.slice_to n l = firstn k l.
Proof. unfold PyList.slice_to. destruct (0 <=? n); eauto. Qed.

(** A slice [[:n]] with [n >= 0] holds at most [n] elements. *)
Lemma slice_to_length {A : Type} (n : Z) (l : list A) :
  0 <= n -> Z.of_nat (List.length (PyList.slice_to n l)) <= n.
Proof.
  intros Hn. unfold PyList.slice_to.
  destruct (Z.leb_spec 0 n) as [_|]; [|lia].
  pose proof (firstn_le_length (Z.to_nat n) l). lia.
Qed.

(* ================================================================= *)
(** ** Scores as whole points *)

Lemma same_float_eq (x y : PyFloat.float) : same_float x y = true -> x = y.
Proof.
  destruct x, y; simpl; try discriminate; try reflexivity.
  - intros H. apply eqb_prop in H. now subst.
  - intros H. apply eqb_prop in H. now subst.
  - rewrite !andb_true_iff. intros [[H1 H2] H3].
    apply eqb_prop in H1. apply Pos.eqb_eq in H2. apply Z.eqb_eq in H3.
    now subst.
Qed.

Lemma in_score_range (k : Z) : 25 <= k <= 100 -> In k score_range.
Proof.
  intros H. unfold score_range. rewrite <- (Z2Nat.id k) by lia.
  apply in_map, in_seq. lia.
Qed.

Lemma score_checks_hold (a : Z) : In a score_range -> score_checks a = true.
Proof. revert a. apply forallb_forall. vm_compute. reflexivity. Qed.

Lemma score_float (a : Z) :
  25 <= a <= 100 ->
  PyFloat.to_Z (PyFloat.of_Z a) = a
  /\ PyFloat.round1 (PyFloat.of_Z a) = PyFloat.of_Z a
  /\ PyFloat.ltb (PyFloat.of_Z 30) (PyFloat.of_Z a) = (30 <? a).
Proof.
  intros Ha. pose proof (score_checks_hold a (in_score_range a Ha)) as H.
  unfold score_checks in H.
  rewrite !andb_true_iff in H. destruct H as [[[H1 H2] H3] _].
  apply Z.eqb_eq in H1. apply same_float_eq in H2. apply eqb_prop in H3.
  auto.
Qed.

Lemma score_float_compare (a b : Z) :
  25 <= a <= 100 -> 25 <= b <= 100 ->
  PyFloat.ltb (PyFloat.of_Z a) (PyFloat.of_Z b) = (a <? b)
  /\ PyFloat.leb (PyFloat.of_Z a) (PyFloat.of_Z b) = (a <=? b).
Proof.
  intros Ha Hb. pose proof (score_checks_hold a (in_score_range a Ha)) as H.
  unfold score_checks in H.
  rewrite !andb_true_iff in H. destruct H as [_ H].
  rewrite forallb_forall in H. specialize (H b (in_score_range b Hb)).
  unfold pair_checks in H.
  rewrite andb_true_iff in H. destruct H as [H1 H2].
  apply eqb_prop in H1, H2. auto.
Qed.

(* ================================================================= *)
(** ** Finding the matches *)

Lemma calculate_match_score_points (company : Company) (grant : Grant) :
  exists k breakdown,
    25 <= k <= 100
    /\ _calculate_match_score company grant = inr (PyFloat.of_Z k, breakdown).
Proof.
  destruct (calculate_match_score_values company grant)
    as (kg & ks & ka & kt & Hg & Hs & Ha & Ht & E).
  eexists _, _. split; [|exact E]. simpl in Hg, Hs, Ha, Ht. lia.
Qed.

(** The loop never raises: it appends, in the order of the collection, the
    entry of every grant that passes the threshold. *)
Lemma match_loop_appends (company : Company) (grants : list Grant) :
  forall matches, exists new,
    match_loop company grants matches = inr (matches ++ new)%list
    /\ map m_grant new = filter (threshold_passed company) grants
    /\ Forall (match_of company) new.
Proof.
  induction grants as [|grant rest IH]; intros matches.
  - exists []. simpl. rewrite app_nil_r. auto.
  - destruct (calculate_match_score_points company grant)
      as (k & breakdown & Hk & E).
    destruct (score_float k Hk) as (Hz & Hr & Hlt).
    cbn [match_loop filter]. unfold threshold_passed at 1. rewrite E, Hlt.
    destruct (Z.ltb_spec 30 k) as [Hpass|Hfail].
    + destruct (IH (matches ++ [make_match grant (PyFloat.of_Z k) breakdown])%list)
        as (new & -> & Hmap & Hall).
      exists (make_match grant (PyFloat.of_Z k) breakdown :: new).
      split; [now rewrite <- app_assoc|].
      split; [simpl; now rewrite Hmap|].
      constructor; [|assumption].
      exists (PyFloat.of_Z k), breakdown.
      unfold match_points. cbn [m_grant m_match_score make_match].
      rewrite Hr, Hz. repeat split; try assumption; lia.
    + apply IH.
Qed.

Lemma match_of_compares (company : Company) (l : list Match) :
  Forall (match_of company) l -> compares_keys match_score_lt match_points l.
Proof.
  intros Hall x y Hx Hy. rewrite Forall_forall in Hall.
  destruct (Hall x Hx) as (sx & bx & _ & _ & Ex & Sx & Rx).
  destruct (Hall y Hy) as (sy & by' & _ & _ & Ey & Sy & Ry).
  unfold match_score_lt. rewrite Ex, Ey, Sx, Sy.
  apply score_float_compare; lia.
Qed.

Lemma match_of_points (company : Company) (m : Match) :
  match_of company m -> match_points m = grant_points company (m_grant m).
Proof.
  intros (score & breakdown & E & Hm & _). unfold grant_points, match_points.
  rewrite E, Hm. reflexivity.
Qed.

(** The grants of the entries of a given score, read off the entries or off
    their grants. *)
Lemma map_grant_with_key (company : Company) (v : Z) (l : list Match) :
  Forall (match_of company) l ->
  map m_grant (with_key match_points v l)
  = filter (fun g => grant_points company g =? v) (map m_grant l).
Proof.
  unfold with_key. intros H. induction H as [|m l Hm _ IH]; [reflexivity|].
  cbn [filter map]. rewrite <- (match_of_points company m Hm).
  destruct (match_points m =? v); cbn [map]; now rewrite IH.
Qed.

Lemma StronglySorted_weaken {A : Type} (R R' : A -> A -> Prop) (l : list A) :
  (forall a b, In a l -> In b l -> R a b -> R' a b) ->
  StronglySorted R l -> StronglySorted R' l.
Proof.
  intros H Hs. induction Hs as [|a l Hs IH Ha]; constructor.
  - apply IH. intros x y Hx Hy. apply H; simpl; auto.
  - rewrite Forall_forall in *. intros b Hb. apply H; simpl; auto.
Qed.

(** C1. For a company id that resolves to a company, [find_matches] returns
    only matches whose score is above 30, sorted by non-increasing score with
    ties in the order of the grant collection (for every score, the grants
    returned with it are the first of the collection's grants that pass the
    threshold with that score, in the collection's order), and at most
    [top_n] of them. *)
Theorem find_matches_ranked (db : Session) (company_id top_n : Z)
    (tr : list event) (company : Company) :
  find (fun c => company_id_pk c =? company_id) (companies db) = Some company ->
  0 <= top_n ->
  exists matches_sorted tr',
    find_matches db company_id top_n tr = (inr (company, matches_sorted), tr')
    /\ Forall (fun m => PyFloat.ltb (PyFloat.of_Z 30) (m_match_score m) = true
                        /\ match_of company m
                        /\ In (m_grant m) (grants db))
              matches_sorted
    /\ StronglySorted (fun a b => fle (m_match_score b) (m_match_score a))
                      matches_sorted
    /\ Z.of_nat (List.length matches_sorted) <= top_n
    /\ forall v, exists rest,
         filter (fun g => grant_points company g =? v)
                (filter (threshold_passed company) (grants db))
         = (map m_grant (with_key match_points v matches_sorted) ++ rest)%list.
Proof.
  intros Hfind Htop.
  destruct (match_loop_appends company (grants db) []) as (ms & Hloop & Hmap & Hall).
  simpl in Hloop.
  pose proof (match_of_compares company ms Hall) as Hcmp.
  set (full := PyList.sorted_reverse match_score_lt ms).
  exists (PyList.slice_to top_n full). eexists.
  split.
  { cbv [find_matches bind query_company_first query_grant_all logger_info
         emit ret lift raise].
    rewrite Hfind, Hloop. reflexivity. }
  destruct (slice_to_firstn top_n full) as (k & Hk).
  assert (Hin : forall m, In m (PyList.slice_to top_n full) -> In m ms).
  { intros m Hm. rewrite Hk in Hm. apply In_firstn_inv in Hm.
    now apply sorted_reverse_In in Hm. }
  assert (Hvalid : forall m, In m (PyList.slice_to top_n full) ->
                             match_of company m /\ In (m_grant m) (grants db)).
  { intros m Hm. apply Hin in Hm. split.
    - rewrite Forall_forall in Hall. auto.
    - apply (in_map m_grant) in Hm. rewrite Hmap in Hm.
      now apply filter_In in Hm. }
  split; [|split; [|split]].
  - apply Forall_forall. intros m Hm. destruct (Hvalid m Hm) as [Hm1 Hm2].
    split; [|auto].
    destruct Hm1 as (s & b & _ & _ & Es & Ss & Rs).
    rewrite Es, Ss.
    assert (Hm' : 25 <= match_points m <= 100) by lia.
    destruct (score_float _ Hm') as (_ & _ & ->).
    apply Z.ltb_lt. lia.
  - apply StronglySorted_weaken
      with (R := fun a b => match_points b <= match_points a).
    + intros a b Ha Hb Hab.
      destruct (proj1 (Hvalid a Ha)) as (sa & ba & _ & _ & Ea & Sa & Ra).
      destruct (proj1 (Hvalid b Hb)) as (sb & bb & _ & _ & Eb & Sb & Rb).
      unfold fle. rewrite Ea, Eb, Sa, Sb.
      assert (Hb' : 25 <= match_points b <= 100) by lia.
      assert (Ha' : 25 <= match_points a <= 100) by lia.
      destruct (score_float_compare _ _ Hb' Ha') as (_ & ->).
      now apply Z.leb_le.
    + rewrite Hk. apply (firstn_descending match_points).
      now apply (sorted_reverse_descending match_score_lt match_points).
  - now apply slice_to_length.
  - intros v. rewrite <- Hmap, <- (map_grant_with_key company v ms Hall).
    rewrite <- (sorted_reverse_with_key match_score_lt match_points v ms Hcmp).
    fold full. rewrite Hk.
    destruct (firstn_with_key match_points v k full) as (rest & ->).
    exists (map m_grant rest). apply map_app.
Qed.

(** The sample collection holds three grants above the threshold for the
    Kenyan startup; asked for two, [find_matches] returns two. *)
Lemma find_matches_ranked_witness :
  find (fun c => company_id_pk c =? 1) (companies sample_db)
  = Some kenyan_startup
  /\ 0 <= 2
  /\ exists matches_sorted tr',
       find_matches sample_db 1 2 [] = (inr (kenyan_startup, matches_sorted), tr')
       /\ Z.of_nat (List.length matches_sorted) <= 2
       /\ Forall (fun m => PyFloat.ltb (PyFloat.of_Z 30) (m_match_score m) = true)
                 matches_sorted.
Proof.
  assert (H1 : find (fun c => company_id_pk c =? 1) (companies sample_db)
               = Some kenyan_startup) by reflexivity.
  assert (H2 : 0 <= 2) by lia.
  split; [exact H1|]. split; [exact H2|].
  destruct (find_matches_ranked sample_db 1 2 [] kenyan_startup H1 H2)
    as (ms & tr' & E & Hall & _ & Hlen & _).
  exists ms, tr'. split; [exact E|]. split; [exact Hlen|].
  apply Forall_forall. intros m Hm. rewrite Forall_forall in Hall.
  exact (proj1 (Hall m Hm)).
Defined.

(** On the sample collection the two tied grants of 95 points come first, in
    the order of the collection (4 before 1), then the global grant of 90;
    the mining grant of 28 points is left out. *)
Example find_matches_scenario :
  match find_matches sample_db 1 5 [] with
  | (inr (company, matches_sorted), tr') =>
      company = kenyan_startup
      /\ map (fun m => (grant_id_pk (m_grant m), match_points m)) matches_sorted
         = [(4, 95); (1, 95); (3, 90)]
      /\ tr' = [QueryCompanyFirst 1; QueryGrantAll;
                LogInfo "Processing 4 grants for company Acme Agro";
                LogInfo "Found 3 matches above threshold, returning top 3"]
  | (inl _, _) => False
  end.
Proof. vm_compute. repeat split. Qed.

(** C8. For a company id that resolves to no company, [find_matches] raises
    [ValueError] after the company query alone: the grant collection is not
    fetched.  The endpoint answers 404. *)
Theorem find_matches_unknown_company (db : Session) (company_id top_n : Z)
    (tr : list event) (Response : Type)
    (respond : Company -> list Match -> Response) :
  (forall c, In c (companies db) -> company_id_pk c <> company_id) ->
  let msg := "Company with ID " ++ PyStr.of_int company_id ++ " not found" in
  find_matches db company_id top_n tr
  = (inl (ValueError msg), (tr ++ [QueryCompanyFirst company_id])%list)
  /\ ~ In QueryGrantAll [QueryCompanyFirst company_id]
  /\ match_company_with_grants Response respond company_id top_n db tr
     = (inl (mkHTTPException 404 msg),
        (tr ++ [LogInfo "ImaraFund IntelligentMatcher initialized";
                QueryCompanyFirst company_id])%list)
  /\ ~ In QueryGrantAll [LogInfo "ImaraFund IntelligentMatcher initialized";
                         QueryCompanyFirst company_id].
Proof.
  intros Hnone msg.
  assert (Hfind : find (fun c => company_id_pk c =? company_id) (companies db)
                  = None).
  { destruct (find _ (companies db)) as [c|] eqn:E; [|reflexivity].
    apply find_some in E as [Hin Hid]. apply Z.eqb_eq in Hid.
    now destruct (Hnone c Hin). }
  assert (Hrun : forall tr0,
             find_matches db company_id top_n tr0
             = (inl (ValueError msg), (tr0 ++ [QueryCompanyFirst company_id])%list)).
  { intros tr0.
    cbv [find_matches bind query_company_first emit ret raise].
    now rewrite Hfind. }
  split; [apply Hrun|].
  split; [simpl; intuition discriminate|].
  split.
  - unfold match_company_with_grants. rewrite Hrun.
    cbv [logger_info emit snd]. now rewrite <- app_assoc.
  - simpl; intuition discriminate.
Qed.

Lemma find_matches_unknown_company_witness :
  (forall c, In c (companies sample_db) -> company_id_pk c <> 2)
  /\ find_matches sample_db 2 5 []
     = (inl (ValueError "Company with ID 2 not found"), [QueryCompanyFirst 2])
  /\ match_company_with_grants nat (fun _ matches => List.length matches)
       2 5 sample_db []
     = (inl (mkHTTPException 404 "Company with ID 2 not found"),
        [LogInfo "ImaraFund IntelligentMatcher initialized";
         QueryCompanyFirst 2]).
Proof.
  assert (H : forall c, In c (companies sample_db) -> company_id_pk c <> 2).
  { intros c [<-|[<-|[]]]; discriminate. }
  split; [exact H|].
  destruct (find_matches_unknown_company sample_db 2 5 [] nat
              (fun _ matches => List.length matches) H)
    as (E1 & _ & E2 & _).
  split; [exact E1 | exact E2].
Defined.

(* ================================================================= *)
(** ** More on the sub-scores and the score *)

(** The values each sub-score can take: geography 0, 35 or 40; sector 10,
    20, 25 or 30; amount fit 8, 15 or 20; stage 7, 8, 9 or 10. *)
Theorem sub_score_values (company : Company) (grant : Grant) :
  In (_score_geography company grant)
     (map PyFloat.of_Z [0; 35; 40])
  /\ In (_score_sector company grant)
        (map PyFloat.of_Z [10; 20; 25; 30])
  /\ In (_score_funding_amount company grant)
        (map (fun k => inr (PyFloat.of_Z k)) [8; 15; 20])
  /\ In (_score_business_stage company grant)
        (map PyFloat.of_Z [7; 8; 9; 10]).
Proof.
  destruct (score_geography_values company grant) as (kg & Hg & ->).
  destruct (score_sector_values company grant) as (ks & Hs & ->).
  destruct (score_funding_amount_values company grant) as (ka & Ha & ->).
  destruct (score_business_stage_values company grant) as (kt & Ht & ->).
  repeat split.
  - now apply in_map.
  - now apply in_map.
  - now apply (in_map (fun k => inr (PyFloat.of_Z k))).
  - now apply in_map.
Qed.

(** The score of a pair is a whole number from 25 to 100, and rounding it to
    one decimal, as [find_matches] does for ['match_score'], leaves it as it
    is. *)
Theorem match_score_is_score (company : Company) (grant : Grant) :
  exists score breakdown k,
    _calculate_match_score company grant = inr (score, breakdown)
    /\ score = PyFloat.of_Z k /\ 25 <= k <= 100
    /\ m_match_score (make_match grant score breakdown) = score.
Proof.
  destruct (calculate_match_score_points company grant)
    as (k & breakdown & Hk & E).
  exists (PyFloat.of_Z k), breakdown, k.
  repeat split; try assumption; try lia.
  cbn [m_match_score make_match]. now destruct (score_float k Hk) as (_ & -> & _).
Qed.

(** A grant with a geographic match, full or regional, always passes the
    threshold of 30; only grants whose geography sub-score is 0 can be left
    out. *)
Theorem geographic_match_passes_threshold (company : Company) (grant : Grant) :
  _score_geography company grant <> PyFloat.of_Z 0 ->
  threshold_passed company grant = true.
Proof.
  intros Hgeo.
  destruct (calculate_match_score_values company grant)
    as (kg & ks & ka & kt & Hg & Hs & Ha & Ht & E).
  pose proof (calculate_match_score_breakdown company grant _ _ E)
    as (Eg & _). cbn [bd_geographic] in Eg.
  assert (Hk : 25 <= kg + ks + ka + kt <= 100)
    by (simpl in Hg, Hs, Ha, Ht; lia).
  unfold threshold_passed. rewrite E.
  destruct (score_float _ Hk) as (_ & _ & ->).
  apply Z.ltb_lt.
  assert (kg <> 0) by (intros ->; now apply Hgeo).
  simpl in Hg, Hs, Ha, Ht. lia.
Qed.

Lemma geographic_match_passes_threshold_witness :
  _score_geography kenyan_startup africa_wide_grant <> PyFloat.of_Z 0
  /\ threshold_passed kenyan_startup africa_wide_grant = true.
Proof.
  assert (H : _score_geography kenyan_startup africa_wide_grant
              <> PyFloat.of_Z 0) by discriminate.
  split; [exact H|].
  exact (geographic_match_passes_threshold kenyan_startup africa_wide_grant H).
Defined.

(* ================================================================= *)
(** ** More on finding the matches *)

Lemma insert_Permutation {A : Type} (lt : A -> A -> bool) (x : A) (l : list A) :
  Permutation (PyList.insert lt x l) (x :: l).
Proof.
  induction l as [|y l IH]; simpl; [reflexivity|].
  destruct (lt x y); [reflexivity|].
  rewrite IH. apply perm_swap.
Qed.

Lemma fold_insert_Permutation {A : Type} (lt : A -> A -> bool)
    (l acc : list A) :
  Permutation (fold_left (fun acc x => PyList.insert lt x acc) l acc)
              (l ++ acc)%list.
Proof.
  revert acc; induction l as [|x l IH]; intros acc; simpl; [reflexivity|].
  rewrite IH, insert_Permutation. symmetry. apply Permutation_middle.
Qed.

(** [sorted(..., reverse=True)] only reorders. *)
Lemma sorted_reverse_Permutation {A : Type} (lt : A -> A -> bool)
    (l : list A) :
  Permutation (PyList.sorted_reverse lt l) l.
Proof.
  unfold PyList.sorted_reverse, PyList.sorted.
  rewrite <- Permutation_rev, fold_insert_Permutation, app_nil_r.
  symmetry. apply Permutation_rev.
Qed.

Lemma StronglySorted_app_cross {A : Type} (R : A -> A -> Prop)
    (l1 l2 : list A) :
  StronglySorted R (l1 ++ l2)%list ->
  forall a b, In a l1 -> In b l2 -> R a b.
Proof.
  induction l1 as [|x l1 IH]; simpl; intros H a b Ha Hb; [contradiction|].
  apply StronglySorted_inv in H as [H Hx].
  destruct Ha as [<-|Ha]; [|now apply IH].
  rewrite Forall_forall in Hx. apply Hx, in_or_app. now right.
Qed.

Lemma skipn_nonempty_firstn_length {A : Type} (n : nat) (l : list A) :
  skipn n l <> [] -> List.length (firstn n l) = n.
Proof.
  intros H. apply firstn_length_le.
  destruct (Nat.le_gt_cases n (List.length l)) as [Hle|Hgt]; [assumption|].
  exfalso. apply H, skipn_all2. lia.
Qed.

(** What a run of [find_matches] does for a company the id resolves to: the
    loop builds [matches], one entry per grant that passes the threshold, in
    the order of the collection; the result is the sorted, sliced list; the
    trace grows by the two queries and the two log lines. *)
Lemma find_matches_run (db : Session) (company_id : Z) (company : Company) :
  find (fun c => company_id_pk c =? company_id) (companies db) = Some company ->
  exists matches,
    map m_grant matches = filter (threshold_passed company) (grants db)
    /\ Forall (match_of company) matches
    /\ forall top_n tr,
         let matches_sorted :=
           PyList.slice_to top_n
             (PyList.sorted_reverse match_score_lt matches) in
         find_matches db company_id top_n tr
         = (inr (company, matches_sorted),
            (tr ++ [QueryCompanyFirst company_id;
                    QueryGrantAll;
                    LogInfo ("Processing " ++ str_len (grants db)
                             ++ " grants for company "
                             ++ match company_name company with
                                | Some n => n
                                | None => "None"
                                end);
                    LogInfo ("Found " ++ str_len matches
                             ++ " matches above threshold, returning top "
                             ++ str_len matches_sorted)])%list).
Proof.
  intros Hfind.
  destruct (match_loop_appends company (grants db) [])
    as (ms & Hloop & Hmap & Hall).
  simpl in Hloop. exists ms. split; [exact Hmap|]. split; [exact Hall|].
  intros top_n tr. cbv zeta.
  cbv [find_matches bind query_company_first query_grant_all logger_info
       emit ret lift raise].
  rewrite Hfind, Hloop. rewrite <- !app_assoc. reflexivity.
Qed.

(** [find_matches] keeps the best: the grants it returns and the passing
    grants it leaves out make up the passing grants of the collection, no
    grant left out has more points than a returned one, and a grant is left
    out only when [top_n] matches are returned. *)
Theorem find_matches_keeps_best (db : Session) (company_id top_n : Z)
    (tr : list event) (company : Company) :
  find (fun c => company_id_pk c =? company_id) (companies db) = Some company ->
  0 <= top_n ->
  exists matches_sorted tr' left_out,
    find_matches db company_id top_n tr = (inr (company, matches_sorted), tr')
    /\ Permutation (map m_grant matches_sorted ++ left_out)%list
                   (filter (threshold_passed company) (grants db))
    /\ (forall m g, In m matches_sorted -> In g left_out ->
                    grant_points company g <= match_points m)
    /\ (left_out = [] \/ Z.of_nat (List.length matches_sorted) = top_n).
Proof.
  intros Hfind Htop.
  destruct (find_matches_run db company_id company Hfind)
    as (ms & Hmap & Hall & Hrun).
  specialize (Hrun top_n tr). cbv zeta in Hrun.
  set (full := PyList.sorted_reverse match_score_lt ms) in *.
  assert (Hslice : PyList.slice_to top_n full = firstn (Z.to_nat top_n) full).
  { unfold PyList.slice_to. destruct (Z.leb_spec 0 top_n); [reflexivity | lia]. }
  rewrite Hslice in Hrun.
  pose proof (sorted_reverse_Permutation match_score_lt ms) as Hperm.
  fold full in Hperm.
  assert (Hfull : Forall (match_of company) full).
  { apply Forall_forall. intros m Hm. rewrite Forall_forall in Hall.
    apply Hall. now apply (Permutation_in _ Hperm). }
  exists (firstn (Z.to_nat top_n) full). eexists.
  exists (map m_grant (skipn (Z.to_nat top_n) full)).
  split; [exact Hrun|]. split; [|split].
  - rewrite <- map_app, firstn_skipn, <- Hmap.
    now apply Permutation_map.
  - intros m g Hm Hg. apply in_map_iff in Hg as (b & <- & Hb).
    rewrite Forall_forall in Hfull.
    rewrite <- (match_of_points company b)
      by (apply Hfull; rewrite <- (firstn_skipn (Z.to_nat top_n) full);
          apply in_or_app; now right).
    apply (StronglySorted_app_cross
             (fun x y => match_points y <= match_points x)
             (firstn (Z.to_nat top_n) full) (skipn (Z.to_nat top_n) full));
      try assumption.
    rewrite firstn_skipn.
    apply (sorted_reverse_descending match_score_lt match_points).
    now apply (match_of_compares company).
  - destruct (skipn (Z.to_nat top_n) full) as [|b rest] eqn:E; [now left|].
    right. rewrite skipn_nonempty_firstn_length; [lia|].
    rewrite E. discriminate.
Qed.

Lemma find_matches_keeps_best_witness :
  find (fun c => company_id_pk c =? 1) (companies sample_db)
  = Some kenyan_startup
  /\ 0 <= 2
  /\ exists matches_sorted tr' left_out,
       find_matches sample_db 1 2 [] = (inr (kenyan_startup, matches_sorted), tr')
       /\ Permutation (map m_grant matches_sorted ++ left_out)%list
                      (filter (threshold_passed kenyan_startup)
                              (grants sample_db))
       /\ (left_out = [] \/ Z.of_nat (List.length matches_sorted) = 2).
Proof.
  assert (H1 : find (fun c => company_id_pk c =? 1) (companies sample_db)
               = Some kenyan_startup) by reflexivity.
  assert (H2 : 0 <= 2) by lia.
  split; [exact H1|]. split; [exact H2|].
  destruct (find_matches_keeps_best sample_db 1 2 [] kenyan_startup H1 H2)
    as (ms & tr' & left_out & E & Hp & _ & Hl).
  exists ms, tr', left_out. auto.
Defined.

(** How many matches [find_matches] returns, for every [top_n]: with [n] the
    number of grants that pass the threshold, [min(top_n, n)] for a
    non-negative [top_n], and [max(0, n + top_n)] for a negative one, which
    the slice [[:top_n]] reads from the end. *)
Theorem find_matches_length (db : Session) (company_id top_n : Z)
    (tr : list event) (company : Company) :
  find (fun c => company_id_pk c =? company_id) (companies db) = Some company ->
  exists matches_sorted tr',
    find_matches db company_id top_n tr = (inr (company, matches_sorted), tr')
    /\ let n := Z.of_nat (List.length (filter (threshold_passed company)
                                              (grants db))) in
       Z.of_nat (List.length matches_sorted)
       = if 0 <=? top_n then Z.min top_n n else Z.max 0 (n + top_n).
Proof.
  intros Hfind.
  destruct (find_matches_run db company_id company Hfind)
    as (ms & Hmap & Hall & Hrun).
  specialize (Hrun top_n tr). cbv zeta in Hrun.
  eexists _, _. split; [exact Hrun|]. cbv zeta.
  rewrite <- Hmap, length_map.
  rewrite <- (Permutation_length (sorted_reverse_Permutation match_score_lt ms)).
  unfold PyList.slice_to.
  destruct (0 <=? top_n) eqn:E; rewrite length_firstn; lia.
Qed.

Lemma find_matches_length_witness :
  find (fun c => company_id_pk c =? 1) (companies sample_db)
  = Some kenyan_startup
  /\ exists matches_sorted tr',
       find_matches sample_db 1 (-1) []
       = (inr (kenyan_startup, matches_sorted), tr')
       /\ Z.of_nat (List.length matches_sorted) = 2.
Proof.
  assert (H1 : find (fun c => company_id_pk c =? 1) (companies sample_db)
               = Some kenyan_startup) by reflexivity.
  split; [exact H1|].
  destruct (find_matches_length sample_db 1 (-1) [] kenyan_startup H1)
    as (ms & tr' & E & Hl).
  exists ms, tr'. split; [exact E | exact Hl].
Defined.

(** For a company the id resolves to, [find_matches] sends exactly two
    queries, the company by id and then the whole grant collection, whatever
    the number of grants, and logs the number of grants read and the numbers
    of matches found and returned. *)
Theorem find_matches_trace (db : Session) (company_id top_n : Z)
    (tr : list event) (company : Company) :
  find (fun c => company_id_pk c =? company_id) (companies db) = Some company ->
  exists matches_sorted,
    fst (find_matches db company_id top_n tr) = inr (company, matches_sorted)
    /\ snd (find_matches db company_id top_n tr)
       = (tr ++ [QueryCompanyFirst company_id;
                 QueryGrantAll;
                 LogInfo ("Processing " ++ str_len (grants db)
                          ++ " grants for company "
                          ++ match company_name company with
                             | Some n => n
                             | None => "None"
                             end);
                 LogInfo ("Found "
                          ++ str_len (filter (threshold_passed company)
                                             (grants db))
                          ++ " matches above threshold, returning top "
                          ++ str_len matches_sorted)])%list.
Proof.
  intros Hfind.
  destruct (find_matches_run db company_id company Hfind)
    as (ms & Hmap & Hall & Hrun).
  specialize (Hrun top_n tr). cbv zeta in Hrun.
  eexists. rewrite Hrun. split; [reflexivity|]. cbn [snd].
  unfold str_len. now rewrite <- Hmap, length_map.
Qed.

Lemma find_matches_trace_witness :
  find (fun c => company_id_pk c =? 1) (companies sample_db)
  = Some kenyan_startup
  /\ exists matches_sorted,
       fst (find_matches sample_db 1 2 []) = inr (kenyan_startup, matches_sorted)
       /\ snd (find_matches sample_db 1 2 [])
          = [QueryCompanyFirst 1; QueryGrantAll;
             LogInfo "Processing 4 grants for company Acme Agro";
             LogInfo ("Found 3 matches above threshold, returning top "
                      ++ str_len matches_sorted)].
Proof.
  assert (H1 : find (fun c => company_id_pk c =? 1) (companies sample_db)
               = Some kenyan_startup) by reflexivity.
  split; [exact H1|].
  destruct (find_matches_trace sample_db 1 2 [] kenyan_startup H1)
    as (ms & E1 & E2).
  exists ms. split; [exact E1|]. rewrite E2. reflexivity.
Defined.

(* ================================================================= *)
(** ** More on the sector and amount sub-scores *)

Lemma append_empty_r (s : string) : s ++ "" = s.
Proof. induction s as [|c s IH]; simpl; congruence. Qed.

Lemma append_assoc (s t u : string) : (s ++ t) ++ u = s ++ t ++ u.
Proof. induction s as [|c s IH]; simpl; congruence. Qed.

(** A text without whitespace splits into itself, or into nothing when it is
    empty. *)
Lemma split_from_no_space (s word : string) :
  no_space s = true ->
  PyStr.split_from word s
  = if PyStr.is_empty (word ++ s) then [] else [word ++ s].
Proof.
  revert word; induction s as [|c s IH]; intros word H.
  - simpl. now rewrite append_empty_r.
  - cbn [no_space] in H. apply andb_true_iff in H as [Hc Hs].
    apply negb_true_iff in Hc. cbn [PyStr.split_from]. rewrite Hc.
    rewrite IH by assumption. now rewrite append_assoc.
Qed.

(** A company sector written as one word never gets the 20 points of the
    partial match: a single word that occurs in the target sectors is an
    exact match already, so the score is 25, 30 or 10. *)
Theorem one_word_sector_never_partial (company : Company) (grant : Grant) :
  no_space (normalize (sector company)) = true ->
  In (_score_sector company grant) (map PyFloat.of_Z [25; 30; 10])
  /\ _score_sector company grant <> PyFloat.of_Z 20.
Proof.
  intros H. unfold _score_sector.
  destruct (existsb _ ["all"; "general"; "any"]).
  { split; [simpl; auto | discriminate]. }
  destruct (PyStr.contains (normalize (sector company)) _) eqn:E.
  { split; [simpl; auto | discriminate]. }
  unfold PyStr.split. rewrite split_from_no_space by assumption.
  cbn [append].
  destruct (PyStr.is_empty (normalize (sector company))).
  { split; [simpl; auto | discriminate]. }
  cbn [filter]. destruct (3 <? _); cbn [existsb]; rewrite ?E;
    (split; [simpl; auto | discriminate]).
Qed.

Lemma one_word_sector_never_partial_witness :
  no_space (normalize (sector kenyan_startup)) = true
  /\ _score_sector kenyan_startup french_mining_grant <> PyFloat.of_Z 20.
Proof.
  assert (H : no_space (normalize (sector kenyan_startup)) = true)
    by reflexivity.
  split; [exact H|].
  exact (proj2 (one_word_sector_never_partial
                  kenyan_startup french_mining_grant H)).
Defined.

(** The sign of a rounded result is the sign it was given. *)
Lemma binary_round_aux_sign (s : bool) (m e : Z) (l : location) :
  let r := binary_round_aux 53 1024 s m e l in
  is_nan r = true \/ negative r = s.
Proof.
  cbv zeta. unfold binary_round_aux.
  destruct (shr_fexp 53 1024 m e l) as [mrs' e'].
  destruct (shr_fexp 53 1024 _ e' loc_Exact) as [mrs'' e''].
  destruct (shr_m mrs'') as [|p|p]; try destruct (Z.leb _ _); simpl; auto.
Qed.

(** The quotient of two floats of opposite signs, neither of them NaN, is
    NaN or has its sign bit set. *)
Lemma fdiv_opposite_signs (x y : PyFloat.float) :
  is_nan x = false -> is_nan y = false -> negative x <> negative y ->
  is_nan (PyFloat.fdiv x y) = true \/ negative (PyFloat.fdiv x y) = true.
Proof.
  intros Hx Hy Hs.
  assert (X : forall a b : bool, a <> b -> xorb a b = true)
    by (intros [] []; simpl; congruence).
  destruct x as [sx|sx| |sx mx ex], y as [sy|sy| |sy my ey];
    try discriminate; simpl in Hs |- *; auto;
    try (right; now apply X).
  unfold PyFloat.fdiv, SFdiv.
  destruct (SFdiv_core_binary 53 1024 (Z.pos mx) ex (Z.pos my) ey)
    as [[mz ez] lz].
  pose proof (binary_round_aux_sign (xorb sx sy) mz ez lz) as H.
  cbv zeta in H. rewrite (X sx sy Hs) in H |- *. exact H.
Qed.

(** A ratio that is NaN or has its sign bit set falls in neither band. *)
Lemma amount_fit_of_bad_ratio (ratio : PyFloat.float) :
  is_nan ratio = true \/ negative ratio = true ->
  amount_fit_of_ratio ratio = PyFloat.of_Z 8.
Proof.
  intros H. unfold amount_fit_of_ratio.
  assert (L : forall lit : PyFloat.float,
             negative lit = false -> is_nan lit = false ->
             PyFloat.eqb lit (PyFloat.of_Z 0) = false ->
             PyFloat.leb lit ratio = false).
  { intros lit Hl Hn Hz.
    destruct lit as [s|s| |s m e]; simpl in Hl, Hn; subst;
      try discriminate;
      destruct ratio as [sr|sr| |sr mr er]; destruct H as [H|H];
        simpl in H; subst; try discriminate; reflexivity. }
  rewrite (L (PyFloat.decimal 1 10)), (L (PyFloat.decimal 5 100));
    reflexivity.
Qed.

(** A funding need and an available amount of opposite signs, or one of them
    NaN, give the lowest amount fit, 8, and no exception. *)
Theorem score_funding_amount_negative_or_nan (company : Company)
    (grant : Grant) (need available : PyFloat.float) :
  funding_need_usd company = Some need ->
  estimated_value_amount grant = Some available ->
  PyFloat.eqb need (PyFloat.of_Z 0) = false ->
  PyFloat.eqb available (PyFloat.of_Z 0) = false ->
  is_nan need = true \/ is_nan available = true
  \/ negative need <> negative available ->
  _score_funding_amount company grant = inr (PyFloat.of_Z 8).
Proof.
  intros Hn Ha Zn Za H.
  unfold _score_funding_amount, truediv. rewrite Hn, Ha.
  rewrite !or_default_nonzero by assumption. rewrite Zn, Za. cbn [orb].
  f_equal. apply amount_fit_of_bad_ratio.
  destruct (is_nan need) eqn:En.
  { left. destruct need; try discriminate. reflexivity. }
  destruct (is_nan available) eqn:Ea.
  { left. destruct available; try discriminate. now destruct need. }
  destruct H as [H|[H|H]]; try discriminate.
  now apply fdiv_opposite_signs.
Qed.

Lemma score_funding_amount_negative_or_nan_witness :
  _score_funding_amount
    {| company_id_pk := 9; company_name := None; sector := None;
       business_stage := None; nationality := None;
       funding_need_usd := Some (PyFloat.of_Z (-50000)) |}
    africa_wide_grant
  = inr (PyFloat.of_Z 8)
  /\ _score_funding_amount
       {| company_id_pk := 9; company_name := None; sector := None;
          business_stage := None; nationality := None;
          funding_need_usd := Some S754_nan |}
       africa_wide_grant
     = inr (PyFloat.of_Z 8).
Proof.
  split.
  - apply (score_funding_amount_negative_or_nan _ _
             (PyFloat.of_Z (-50000)) (PyFloat.of_Z 100000));
      try reflexivity.
    right; right. discriminate.
  - apply (score_funding_amount_negative_or_nan _ _
             S754_nan (PyFloat.of_Z 100000));
      try reflexivity.
    left. reflexivity.
Defined.

(* ================================================================= *)
(** ** More on the endpoints *)


(** [get_grant] returns a grant of the collection that has the requested id,
    the first one in the collection's order, and answers 404 exactly when no
    grant has that id. *)
Theorem get_grant_lookup (grant_id : Z) (db : Session) :
  (forall grant, get_grant grant_id db = inr grant ->
     In grant (grants db) /\ grant_id_pk grant = grant_id
     /\ exists before after,
          grants db = (before ++ grant :: after)%list
          /\ forall g, In g before -> grant_id_pk g <> grant_id)
  /\ ((exists grant, In grant (grants db) /\ grant_id_pk grant = grant_id)
      <-> exists grant, get_grant grant_id db = inr grant)
  /\ ((forall grant, In grant (grants db) -> grant_id_pk grant <> grant_id)
      <-> get_grant grant_id db
          = inl (mkHTTPException 404
                   ("Grant " ++ PyStr.of_int grant_id ++ " not found"))).
Proof.
  unfold get_grant.
  assert (Hfirst : forall l grant,
             find (fun g => grant_id_pk g =? grant_id) l = Some grant ->
             exists before after,
               l = (before ++ grant :: after)%list
               /\ forall g, In g before -> grant_id_pk g <> grant_id).
  { induction l as [|x l IH]; intros grant H; [discriminate|].
    simpl in H. destruct (Z.eqb_spec (grant_id_pk x) grant_id) as [E|N].
    - injection H as <-. exists [], l. split; [reflexivity | intros g []].
    - destruct (IH grant H) as (before & after & -> & Hb).
      exists (x :: before), after. split; [reflexivity|].
      intros g [<-|Hg]; auto. }
  destruct (find _ (grants db)) as [grant|] eqn:Hfind.
  - pose proof (find_some _ _ Hfind) as [Hin Hid]. apply Z.eqb_eq in Hid.
    split; [|split].
    + intros g E. injection E as <-. auto.
    + split; eauto.
    + split; [|discriminate].
      intros H. now destruct (H grant Hin).
  - split; [|split].
    + discriminate.
    + split.
      * intros (g & Hin & Hid).
        pose proof (find_none _ _ Hfind g Hin) as H.
        apply Z.eqb_neq in H. contradiction.
      * intros (g & E). discriminate.
    + split; [reflexivity|].
      intros _ g Hin. apply Z.eqb_neq. exact (find_none _ _ Hfind g Hin).
Qed.

(* ================================================================= *)
(** ** The migration helpers *)

Lemma length_append (s t : string) :
  String.length (s ++ t) = (String.length s + String.length t)%nat.
Proof. induction s as [|c s IH]; simpl; congruence. Qed.

Lemma length_lower (s : string) :
  String.length (PyStr.lower s) = String.length s.
Proof. induction s as [|c s IH]; simpl; congruence. Qed.

Lemma length_take (n : nat) (s : string) :
  String.length (take n s) = Nat.min n (String.length s).
Proof.
  revert s; induction n as [|n IH]; intros [|c s]; simpl; try reflexivity.
  now rewrite IH.
Qed.

Lemma lower_append (s t : string) :
  PyStr.lower (s ++ t) = PyStr.lower s ++ PyStr.lower t.
Proof. induction s as [|c s IH]; simpl; congruence. Qed.

Lemma length_lstrip (s : string) :
  (String.length (PyStr.lstrip s) <= String.length s)%nat.
Proof.
  induction s as [|c s IH]; simpl; [lia|].
  destruct (PyStr.isspace c); simpl; lia.
Qed.

(** A text that [lstrip] leaves alone is empty or starts with a character
    that is not whitespace. *)
Lemma lstrip_fixed (s : string) :
  PyStr.lstrip s = s <->
  s = "" \/ exists c s', s = String c s' /\ PyStr.isspace c = false.
Proof.
  split.
  - destruct s as [|c s]; [now left|]. simpl.
    destruct (PyStr.isspace c) eqn:E; [|right; eauto].
    intros H. pose proof (length_lstrip s) as L. rewrite H in L.
    simpl in L. lia.
  - intros [->|(c & s' & -> & E)]; simpl; [reflexivity | now rewrite E].
Qed.

Lemma rstrip_idempotent (s : string) :
  PyStr.rstrip (PyStr.rstrip s) = PyStr.rstrip s.
Proof.
  induction s as [|c s IH]; [reflexivity|].
  cbn [PyStr.rstrip].
  destruct (PyStr.isspace c && PyStr.is_empty (PyStr.rstrip s)) eqn:E;
    [reflexivity|].
  cbn [PyStr.rstrip]. now rewrite IH, E.
Qed.

(** What [strip] returns is left alone by [lstrip] and by [rstrip]. *)
Lemma strip_trimmed (s : string) :
  PyStr.lstrip (PyStr.strip s) = PyStr.strip s
  /\ PyStr.rstrip (PyStr.strip s) = PyStr.strip s.
Proof.
  unfold PyStr.strip. split; [|apply rstrip_idempotent].
  assert (H : PyStr.lstrip (PyStr.lstrip s) = PyStr.lstrip s).
  { induction s as [|c s IH]; [reflexivity|]. simpl.
    destruct (PyStr.isspace c) eqn:E; [exact IH|]. simpl. now rewrite E. }
  apply lstrip_fixed in H as [->|(c & s' & -> & E)]; [reflexivity|].
  cbn [PyStr.rstrip]. rewrite E. cbn [andb]. simpl. now rewrite E.
Qed.

Lemma strip_idempotent (s : string) :
  PyStr.strip (PyStr.strip s) = PyStr.strip s.
Proof.
  destruct (strip_trimmed s) as [L R].
  unfold PyStr.strip at 1. now rewrite L, R.
Qed.

Lemma rstrip_append_dots (s : string) :
  PyStr.rstrip (s ++ "...") = s ++ "...".
Proof.
  induction s as [|c s IH]; [reflexivity|].
  cbn [append PyStr.rstrip]. rewrite IH.
  destruct s; simpl; now rewrite andb_false_r.
Qed.

(** A text cut and closed with "..." is still a trimmed text. *)
Lemma strip_cut (n : nat) (s : string) :
  PyStr.lstrip s = s ->
  PyStr.strip (take n s ++ "...") = take n s ++ "...".
Proof.
  intros H. unfold PyStr.strip.
  assert (L : PyStr.lstrip (take n s ++ "...") = take n s ++ "...").
  { apply lstrip_fixed in H as [->|(c & s' & -> & E)].
    - destruct n; reflexivity.
    - destruct n; [reflexivity|]. simpl. now rewrite E. }
  rewrite L. apply rstrip_append_dots.
Qed.

(** A text that ends with "..." is none of "nan", "null" and "none". *)
Lemma cut_not_null_literal (s : string) :
  PyStr.mem (PyStr.lower (s ++ "...")) ["nan"; "null"; "none"] = false.
Proof.
  apply not_true_is_false. intros H. apply mem_iff_In in H.
  rewrite lower_append in H.
  assert (L : forall t, PyStr.lower s ++ "..." = t ->
                        String.length s = (String.length t - 3)%nat
                        /\ (3 <= String.length t)%nat).
  { intros t <-. rewrite length_append, length_lower. simpl. lia. }
  simpl in H. destruct H as [H|[H|[H|[]]]]; symmetry in H;
    destruct (L _ H) as [Hl _]; simpl in Hl;
    destruct s as [|a [|b s]]; simpl in Hl; try discriminate;
    simpl in H; discriminate.
Qed.

(** What [safe_string] returns when it returns a text. *)
Lemma safe_string_shape (float_str : PyFloat.float -> string)
    (value : cell) (max_length : option Z) (r : string) :
  safe_string float_str value max_length = Some r ->
  r <> ""
  /\ PyStr.strip r = r
  /\ PyStr.mem (PyStr.lower r) ["nan"; "null"; "none"] = false
  /\ forall n, max_length = Some n -> 3 <= n -> PyStr.len r <= n.
Proof.
  unfold safe_string.
  destruct (isna value || _); [discriminate|].
  set (result := PyStr.strip (cell_str float_str value)).
  destruct (PyStr.is_empty result) eqn:Ee; [discriminate|].
  destruct (PyStr.mem (PyStr.lower result) _) eqn:Em; [discriminate|].
  cbn [orb].
  assert (Hs : PyStr.strip result = result) by apply strip_idempotent.
  assert (Hne : result <> "") by (intros E; rewrite E in Ee; discriminate).
  assert (Whole : Some result = Some r ->
                  (forall n, max_length = Some n -> 3 <= n ->
                             PyStr.len result <= n) ->
                  r <> "" /\ PyStr.strip r = r
                  /\ PyStr.mem (PyStr.lower r) ["nan"; "null"; "none"] = false
                  /\ forall n, max_length = Some n -> 3 <= n ->
                               PyStr.len r <= n).
  { intros E Hlen. injection E as <-. auto. }
  destruct max_length as [n|]; [|intros E; apply Whole; [exact E | discriminate]].
  destruct (negb (n =? 0) && (n <? PyStr.len result)) eqn:Ec.
  - intros E. injection E as <-.
    unfold str_slice_to.
    set (k := if 0 <=? n - 3 then Z.to_nat (n - 3)
              else (String.length result - Z.to_nat (- (n - 3)))%nat).
    replace (if 0 <=? n - 3 then take (Z.to_nat (n - 3)) result
             else take (String.length result - Z.to_nat (- (n - 3))) result)
      with (take k result) by (unfold k; now destruct (0 <=? n - 3)).
    split; [|split; [|split]].
    + destruct (take k result); discriminate.
    + apply strip_cut. apply (proj1 (strip_trimmed _)).
    + apply cut_not_null_literal.
    + intros n' E Hn. injection E as <-. unfold PyStr.len.
      rewrite length_append, length_take. simpl.
      unfold k. destruct (Z.leb_spec 0 (n - 3)); lia.
  - intros E. apply Whole; [exact E|].
    intros n' E' Hn. injection E' as <-.
    apply andb_false_iff in Ec as [Ec|Ec].
    + apply negb_false_iff, Z.eqb_eq in Ec. lia.
    + now apply Z.ltb_ge in Ec.
Qed.

(** [safe_string] never returns an empty or padded text, nor "nan", "null"
    or "none" in any letter case; with a [max_length] of 3 or more the text
    it returns is at most that long. *)
Theorem safe_string_result (float_str : PyFloat.float -> string)
    (value : cell) (max_length : option Z) :
  match safe_string float_str value max_length with
  | None => True
  | Some r =>
      r <> ""
      /\ PyStr.strip r = r
      /\ ~ In (PyStr.lower r) ["nan"; "null"; "none"]
      /\ forall n, max_length = Some n -> 3 <= n -> PyStr.len r <= n
  end.
Proof.
  destruct (safe_string float_str value max_length) as [r|] eqn:E; [|exact I].
  destruct (safe_string_shape float_str value max_length r E)
    as (H1 & H2 & H3 & H4).
  repeat split; try assumption.
  intros Hin. apply mem_iff_In in Hin. congruence.
Qed.

(** Cleaning a cleaned text changes nothing: what [safe_string] returned is
    returned as it is when it is passed again, with the same [max_length]
    (none, 0, or 3 and more). *)
Theorem safe_string_idempotent (float_str : PyFloat.float -> string)
    (value : cell) (max_length : option Z) (r : string) :
  (forall n, max_length = Some n -> n = 0 \/ 3 <= n) ->
  safe_string float_str value max_length = Some r ->
  safe_string float_str (CStr r) max_length = Some r.
Proof.
  intros Hmax E.
  destruct (safe_string_shape float_str value max_length r E)
    as (H1 & H2 & H3 & H4).
  unfold safe_string. cbn [isna orb cell_str]. rewrite H2, H3.
  destruct r as [|c r]; [congruence|]. cbn [PyStr.is_empty orb].
  destruct max_length as [n|]; [|reflexivity].
  destruct (Hmax n eq_refl) as [->|Hn]; [reflexivity|].
  specialize (H4 n eq_refl Hn).
  destruct (Z.ltb_spec n (PyStr.len (String c r))); [lia|].
  now rewrite andb_false_r.
Qed.

Lemma safe_string_idempotent_witness :
  (forall n, Some 10 = Some n -> n = 0 \/ 3 <= n)
  /\ safe_string (fun _ => "") (CStr "  Agriculture and Fisheries  ") (Some 10)
     = Some "Agricul..."
  /\ safe_string (fun _ => "") (CStr "Agricul...") (Some 10)
     = Some "Agricul...".
Proof.
  assert (H : forall n, Some 10 = Some n -> n = 0 \/ 3 <= n).
  { intros n E. injection E as <-. right. lia. }
  assert (E : safe_string (fun _ => "")
                (CStr "  Agriculture and Fisheries  ") (Some 10)
              = Some "Agricul...") by reflexivity.
  split; [exact H|]. split; [exact E|].
  exact (safe_string_idempotent _ _ _ _ H E).
Defined.

(** For a non-zero [max_length] below 3 the cut goes wrong: a text longer
    than [max_length] comes back with at least the three dots, so longer
    than [max_length]. *)
Theorem safe_string_short_limit (float_str : PyFloat.float -> string)
    (value : cell) (n : Z) (r : string) :
  n <> 0 -> n < 3 ->
  safe_string float_str value (Some n) = Some r ->
  n < PyStr.len (PyStr.strip (cell_str float_str value)) ->
  n < PyStr.len r /\ 3 <= PyStr.len r.
Proof.
  intros Hn0 Hn3. unfold safe_string.
  destruct (isna value || _); [discriminate|].
  destruct (PyStr.is_empty _ || _); [discriminate|].
  intros E Hlen.
  apply Z.eqb_neq in Hn0. apply Z.ltb_lt in Hlen. rewrite Hn0, Hlen in E.
  cbn [negb andb] in E. injection E as <-.
  unfold PyStr.len. rewrite length_append. simpl. lia.
Qed.

Lemma safe_string_short_limit_witness :
  2 <> 0 /\ 2 < 3
  /\ safe_string (fun _ => "") (CStr "Kenya") (Some 2) = Some "Keny..."
  /\ 2 < PyStr.len "Keny...".
Proof.
  assert (H0 : 2 <> 0) by discriminate.
  assert (H3 : 2 < 3) by reflexivity.
  assert (E : safe_string (fun _ => "") (CStr "Kenya") (Some 2)
              = Some "Keny...") by reflexivity.
  split; [exact H0|]. split; [exact H3|]. split; [exact E|].
  exact (proj1 (safe_string_short_limit _ _ _ _ H0 H3 E eq_refl)).
Defined.

(* ================================================================= *)
(** ** Letter case and padding *)

Lemma lstrip_app_space (a u : string) :
  all_space a = true -> PyStr.lstrip (a ++ u) = PyStr.lstrip u.
Proof.
  induction a as [|c a IH]; simpl; [reflexivity|].
  intros H. apply andb_true_iff in H as [Hc Ha]. rewrite Hc. auto.
Qed.

Lemma rstrip_all_space (b : string) :
  all_space b = true -> PyStr.rstrip b = "".
Proof.
  induction b as [|c b IH]; simpl; [reflexivity|].
  intros H. apply andb_true_iff in H as [Hc Hb].
  now rewrite IH, Hc.
Qed.

Lemma rstrip_app_space (u b : string) :
  all_space b = true -> PyStr.rstrip (u ++ b) = PyStr.rstrip u.
Proof.
  intros Hb. induction u as [|c u IH].
  - simpl. now apply rstrip_all_space.
  - cbn [append PyStr.rstrip]. now rewrite IH.
Qed.

Lemma lstrip_app_text (u b : string) :
  all_space u = false -> PyStr.lstrip (u ++ b) = PyStr.lstrip u ++ b.
Proof.
  induction u as [|c u IH]; simpl; [discriminate|].
  destruct (PyStr.isspace c); simpl; auto.
Qed.

Lemma all_space_append (a b : string) :
  all_space (a ++ b) = all_space a && all_space b.
Proof.
  induction a as [|c a IH]; simpl; [reflexivity|].
  now rewrite IH, andb_assoc.
Qed.

(** [strip] removes the whitespace around a text, whatever it is. *)
Lemma strip_padded (a u b : string) :
  all_space a = true -> all_space b = true ->
  PyStr.strip (a ++ u ++ b) = PyStr.strip u.
Proof.
  intros Ha Hb. unfold PyStr.strip. rewrite lstrip_app_space by assumption.
  destruct (all_space u) eqn:Hu.
  - assert (H : all_space (u ++ b) = true)
      by (rewrite all_space_append, Hu, Hb; reflexivity).
    apply lstrip_empty_iff in H, Hu. now rewrite H, Hu.
  - rewrite lstrip_app_text by assumption. now apply rstrip_app_space.
Qed.

Lemma normalize_same_text (x y : option string) :
  same_text x y -> normalize x = normalize y.
Proof.
  intros [->|(a & s & b & t & -> & -> & Ha & Hb & E)]; [reflexivity|].
  assert (N : forall u, normalize (Some u) = PyStr.strip (PyStr.lower u)).
  { intros u. unfold normalize. simpl. now destruct u. }
  rewrite !N, !lower_append, <- E.
  apply strip_padded; now rewrite all_space_lower.
Qed.

(** The score and the breakdown of a pair do not depend on the letter case
    of the texts they read nor on whitespace around them. *)
Theorem calculate_match_score_same_text (company company' : Company)
    (grant grant' : Grant) :
  same_text (nationality company) (nationality company') ->
  same_text (sector company) (sector company') ->
  same_text (business_stage company) (business_stage company') ->
  funding_need_usd company = funding_need_usd company' ->
  same_text (geographic_scope grant) (geographic_scope grant') ->
  same_text (country grant) (country grant') ->
  same_text (target_sectors grant) (target_sectors grant') ->
  estimated_value_amount grant = estimated_value_amount grant' ->
  _calculate_match_score company grant
  = _calculate_match_score company' grant'.
Proof.
  intros Hn Hs Hb Hf Hg Hc Ht Ha.
  apply normalize_same_text in Hn, Hs, Hb, Hg, Hc, Ht.
  unfold _calculate_match_score, _score_geography, _score_sector,
    _score_funding_amount, _score_business_stage.
  now rewrite Hn, Hs, Hb, Hf, Hg, Hc, Ht, Ha.
Qed.

Lemma calculate_match_score_same_text_witness :
  _calculate_match_score
    {| company_id_pk := 1;
       company_name := Some "Acme Agro";
       sector := Some " AGRICULTURE";
       business_stage := Some "StartUp ";
       nationality := Some "  KENYA  ";
       funding_need_usd := Some (PyFloat.of_Z 50000) |}
    africa_wide_grant
  = _calculate_match_score kenyan_startup africa_wide_grant.
Proof.
  apply calculate_match_score_same_text;
    try reflexivity; try (left; reflexivity).
  - right. exists "  ", "KENYA", "  ", "Kenya". repeat split; reflexivity.
  - right. exists " ", "AGRICULTURE", "", "agriculture".
    repeat split; reflexivity.
  - right. exists "", "StartUp", " ", "startup". repeat split; reflexivity.
Defined.

(* ================================================================= *)
(** ** The matcher against the schemas and the import defaults *)

(** Every breakdown the matcher computes is within the bounds of
    [ScoreBreakdown] and every match entry within the bound of
    [MatchResult]: building the response never fails on a score. *)
Theorem scores_within_schema_bounds (company : Company) (grant : Grant) :
  exists score breakdown,
    _calculate_match_score company grant = inr (score, breakdown)
    /\ ScoreBreakdown_in_bounds breakdown = true
    /\ MatchResult_score_in_bounds (make_match grant score breakdown) = true.
Proof.
  destruct (calculate_match_score_values company grant)
    as (kg & ks & ka & kt & Hg & Hs & Ha & Ht & E).
  eexists _, _. split; [exact E|].
  unfold MatchResult_score_in_bounds. cbn [m_match_score make_match].
  clear E. simpl in Hg, Hs, Ha, Ht.
  repeat match goal with
         | H : _ \/ _ |- _ => destruct H as [H|H]
         | H : False |- _ => destruct H
         end; subst; vm_compute; split; reflexivity.
Qed.

(** A company imported from a row without a sector and without a nationality
    is stored as "General" and "Unknown": it never gets the exact or partial
    sector match (its sector score is 25 or 10) nor the regional match (its
    geography score is 40 or 0). *)
Theorem imported_defaults_scores (float_str : PyFloat.float -> string)
    (sector_cell nationality_cell : cell) (company : Company) (grant : Grant) :
  safe_string float_str sector_cell (Some 200) = None ->
  safe_string float_str nationality_cell (Some 100) = None ->
  sector company = Some (imported_sector float_str sector_cell) ->
  nationality company
  = Some (imported_nationality float_str nationality_cell) ->
  In (_score_sector company grant) (map PyFloat.of_Z [25; 10])
  /\ In (_score_geography company grant) (map PyFloat.of_Z [40; 0]).
Proof.
  intros Hs Hn Es En.
  unfold imported_sector in Es. unfold imported_nationality in En.
  rewrite Hs in Es. rewrite Hn in En. cbn [PyStr.or_default] in Es, En.
  split.
  - unfold _score_sector. rewrite Es.
    change (normalize (Some "General")) with "general".
    set (target := normalize (target_sectors grant)).
    destruct (existsb _ ["all"; "general"; "any"]) eqn:E; [simpl; auto|].
    cbn [existsb] in E. rewrite !orb_false_iff in E.
    destruct E as (_ & E & _).
    rewrite E.
    change (PyStr.split "general") with ["general"].
    change (filter (fun word => 3 <? PyStr.len word) ["general"])
      with ["general"].
    cbn [existsb]. rewrite E. simpl. auto.
  - unfold _score_geography. rewrite En.
    change (normalize (Some "Unknown")) with "unknown".
    destruct (PyStr.contains "global" _); [simpl; auto|].
    destruct (_ || _); [simpl; auto|].
    change (PyStr.mem "unknown" africa_countries) with false.
    simpl. auto.
Qed.

Lemma imported_defaults_scores_witness :
  safe_string (fun _ => "") (CStr "  ") (Some 200) = None
  /\ safe_string (fun _ => "") CNone (Some 100) = None
  /\ In (_score_sector
           {| company_id_pk := 3; company_name := None;
              sector := Some "General"; business_stage := Some "Unknown";
              nationality := Some "Unknown"; funding_need_usd := None |}
           africa_wide_grant)
        (map PyFloat.of_Z [25; 10]).
Proof.
  assert (H1 : safe_string (fun _ => "") (CStr "  ") (Some 200) = None)
    by reflexivity.
  assert (H2 : safe_string (fun _ => "") CNone (Some 100) = None)
    by reflexivity.
  split; [exact H1|]. split; [exact H2|].
  exact (proj1 (imported_defaults_scores (fun _ => "") (CStr "  ") CNone
                  {| company_id_pk := 3; company_name := None;
                     sector := Some "General";
                     business_stage := Some "Unknown";
                     nationality := Some "Unknown";
                     funding_need_usd := None |}
                  africa_wide_grant H1 H2 eq_refl eq_refl)).
Defined.
